(** * ai_stock_analyzer: quote fetcher, summary formatter and run loop

    A shallow embedding of [ai_stock_analyzer.py] and the properties of its
    three functions [get_stock_data], [format_stock_summary] and [main].

    - Python [str] values are lists of Unicode code points ([PyStr.pystr]).
    - Python [float] values are IEEE 754 binary64 numbers ([PrimFloat.float]);
      the builtins [round(x, 2)], [repr], [format(x, ".2f")] and [float(str)]
      are written out over their exact binary values ([PyFloat]).
    - Exceptions and console output are threaded through a small monad
      ([Py]): a computation yields the events it performed and either a value
      or the exception that escaped it. *)

From Stdlib Require Import ZArith NArith PArith List String Ascii Bool Lia Floats.
From Stdlib Require Uint63.
Import ListNotations.

(* ================================================================== *)
(** ** Python strings *)

Module PyStr.

(** A [str] is a sequence of code points. *)
Definition pystr := list N.

(** Decoder for the UTF-8 bytes of a literal: [need] continuation bytes are
    still expected for the code point accumulated in [acc]. *)
Fixpoint utf8 (s : string) (need : nat) (acc : N) : pystr :=
  match s with
  | EmptyString => []
  | String c rest =>
      let b := N_of_ascii c in
      match need with
      | O =>
          if (b <? 128)%N then b :: utf8 rest 0 0%N
          else if (b <? 224)%N then utf8 rest 1 (b - 192)%N
          else if (b <? 240)%N then utf8 rest 2 (b - 224)%N
          else utf8 rest 3 (b - 240)%N
      | S O => (acc * 64 + (b - 128))%N :: utf8 rest 0 0%N
      | S n => utf8 rest n (acc * 64 + (b - 128))%N
      end
  end.

(** The [str] written by a literal. *)
Definition py (s : string) : pystr := utf8 s 0 0%N.

(** [a == b] on strings. *)
Fixpoint eqb (a b : pystr) : bool :=
  match a, b with
  | [], [] => true
  | x :: a', y :: b' => (x =? y)%N && eqb a' b'
  | _, _ => false
  end.

(** [s.replace(c, "")] for a one-character [c]. *)
Definition remove_char (c : N) (s : pystr) : pystr :=
  filter (fun x => negb (x =? c)%N) s.

(** [s[:n]]. *)
Definition prefix (n : nat) (s : pystr) : pystr := firstn n s.

(** [c * n] for a one-character [c]. *)
Definition times (c : N) (n : nat) : pystr := repeat c n.

(** Truth value of a string: non-empty. *)
Definition truthy (s : pystr) : bool :=
  match s with [] => false | _ => true end.

Definition LF : N := 10%N.
Definition ESC : N := 27%N.

(** The lines of a text: the pieces between line feeds. *)
Fixpoint lines_from (cur : pystr) (s : pystr) : list pystr :=
  match s with
  | [] => [rev cur]
  | c :: rest =>
      if (c =? LF)%N then rev cur :: lines_from [] rest
      else lines_from (c :: cur) rest
  end.

Definition lines (s : pystr) : list pystr := lines_from [] s.

Definition no_newline (s : pystr) : Prop := ~ In LF s.

(** [s] holds a line feed. *)
Definition has_newline (s : pystr) : bool := existsb (N.eqb LF) s.

(** Decimal digits of a natural number, as code points. *)
Fixpoint uint_digits (u : Decimal.uint) : pystr :=
  match u with
  | Decimal.Nil => []
  | Decimal.D0 u => 48%N :: uint_digits u
  | Decimal.D1 u => 49%N :: uint_digits u
  | Decimal.D2 u => 50%N :: uint_digits u
  | Decimal.D3 u => 51%N :: uint_digits u
  | Decimal.D4 u => 52%N :: uint_digits u
  | Decimal.D5 u => 53%N :: uint_digits u
  | Decimal.D6 u => 54%N :: uint_digits u
  | Decimal.D7 u => 55%N :: uint_digits u
  | Decimal.D8 u => 56%N :: uint_digits u
  | Decimal.D9 u => 57%N :: uint_digits u
  end.

Definition digits_of (n : N) : pystr := uint_digits (N.to_uint n).

End PyStr.

Import PyStr.

(* ================================================================== *)
(** ** Python floats *)

Module PyFloat.

Local Open Scope Z_scope.

(** Truth value of a float: [x != 0.0]; a NaN is true. *)
Definition truthy (x : float) : bool := negb (x =? 0)%float.

(** [pd.isna(x)] on a float. *)
Definition isna (x : float) : bool := is_nan x.

Definition hundred : float := 100%float.
Definition ten : float := 10%float.

(** *** Rounding helpers on exact values *)

(** Nearest integer to [a / b], ties to even ([0 <= a], [0 < b]). *)
Definition rne_div (a b : Z) : Z :=
  let q := a / b in
  let r := a mod b in
  match 2 * r ?= b with
  | Lt => q
  | Gt => q + 1
  | Eq => if Z.even q then q else q + 1
  end.

(** The binary64 number nearest to [n / d], ties to even, with sign [s]
    ([0 <= n], [0 < d]). *)
Definition nearest (s : bool) (n d : Z) : spec_float :=
  match n with
  | Z0 => S754_zero s
  | _ =>
      let '(mz, ez, lz) := SFdiv_core_binary prec emax n 0 d 0 in
      binary_round_aux prec emax s mz ez lz
  end.

(** [m * 2^e] as a fraction. *)
Definition fraction (m : positive) (e : Z) : Z * Z :=
  match e with
  | Zneg p => (Zpos m, 2 ^ Zpos p)
  | _ => (Zpos m * 2 ^ e, 1)
  end.

(** [m * 2^e * 100] rounded to an integer, ties to even. *)
Definition hundredths (m : positive) (e : Z) : Z :=
  let '(num, den) := fraction m e in rne_div (num * 100) den.

(** *** [round(x, 2)]

    The value is rounded to two decimals on its exact binary expansion
    (ties to even) and the decimal is converted back to the nearest float;
    NaN, infinities and zeros round to themselves; the sign is kept. *)
Definition round2 (x : float) : float :=
  match Prim2SF x with
  | S754_finite s m e => SF2Prim (nearest s (hundredths m e) 100)
  | _ => x
  end.

(** *** Decimal to float *)

Definition ndigits (n : Z) : Z := Z.of_nat (List.length (digits_of (Z.to_N n))).

(** The float nearest to [mant * 10^e10], with sign [s] ([0 <= mant]). *)
Definition of_decimal (s : bool) (mant e10 : Z) : spec_float :=
  if mant =? 0 then S754_zero s
  else if 400 <? e10 + ndigits mant then S754_infinity s
  else if e10 + ndigits mant <? -400 then S754_zero s
  else match e10 with
       | Zneg p => nearest s mant (10 ^ Zpos p)
       | _ => nearest s (mant * 10 ^ e10) 1
       end.

(** *** [repr(x)]: the shortest decimal that reads back as [x] *)

(** Number of zeros right after the decimal point of [num / den < 1]. *)
Fixpoint leading_zeros (fuel : nat) (num den : Z) : Z :=
  match fuel with
  | O => 0
  | S f => if den <=? num * 10 then 0 else 1 + leading_zeros f (num * 10) den
  end.

(** [d] with [10^(d-1) <= num/den < 10^d]. *)
Definition decimal_point (num den : Z) : Z :=
  if den <=? num then ndigits (num / den)
  else - leading_zeros 400 num den.

Definition scale10 (num den p : Z) : Z * Z :=
  match p with
  | Zneg q => (num, den * 10 ^ Zpos q)
  | _ => (num * 10 ^ p, den)
  end.

Definition reads_back (m : positive) (e : Z) (mant e10 : Z) : bool :=
  match of_decimal false mant e10 with
  | S754_finite false m' e' => Pos.eqb m m' && Z.eqb e e'
  | _ => false
  end.

(** A [k]-digit decimal that reads back as [m * 2^e], the closest one when
    both neighbours do. *)
Definition candidate (m : positive) (e : Z) (dp k : Z) : option Z :=
  let '(num, den) := fraction m e in
  let '(a, b) := scale10 num den (k - dp) in
  let lo := a / b in
  let r := a mod b in
  let hi := lo + 1 in
  let ok_lo := reads_back m e lo (dp - k) in
  let ok_hi := reads_back m e hi (dp - k) in
  if r =? 0 then Some lo
  else if ok_lo && ok_hi then Some (if 2 * r <? b then lo else hi)
  else if ok_lo then Some lo
  else if ok_hi then Some hi
  else None.

Fixpoint shortest (fuel : nat) (m : positive) (e : Z) (dp k : Z) : Z * Z :=
  match fuel with
  | O =>
      let '(num, den) := fraction m e in
      let '(a, b) := scale10 num den (k - dp) in
      (rne_div a b, dp - k)
  | S f =>
      match candidate m e dp k with
      | Some d => (d, dp - k)
      | None => shortest f m e dp (k + 1)
      end
  end.

Fixpoint strip_zeros (fuel : nat) (d e10 : Z) : Z * Z :=
  match fuel with
  | O => (d, e10)
  | S f => if (d mod 10 =? 0) && negb (d =? 0)
           then strip_zeros f (d / 10) (e10 + 1) else (d, e10)
  end.

(** Digits [ds] and decimal point [dp] of the shortest decimal of
    [m * 2^e]: the value reads [0.ds * 10^dp]. *)
Definition shortest_digits (m : positive) (e : Z) : pystr * Z :=
  let '(num, den) := fraction m e in
  let dp := decimal_point num den in
  let '(d, e10) := shortest 16 m e dp 1 in
  let '(d, e10) := strip_zeros 400 d e10 in
  let ds := digits_of (Z.to_N d) in
  (ds, Z.of_nat (List.length ds) + e10).

Definition two_digits (n : Z) : pystr :=
  if n <? 10 then 48%N :: digits_of (Z.to_N n) else digits_of (Z.to_N n).

(** Layout of [repr]: scientific when the decimal point is far from the
    digits, positional otherwise, always with a fractional part. *)
Definition repr_layout (ds : pystr) (dp : Z) : pystr :=
  let n := Z.of_nat (List.length ds) in
  if (dp <=? -4) || (16 <? dp) then
    let mant := match ds with
                | [] => []
                | [d] => [d]
                | d :: rest => d :: py "." ++ rest
                end in
    let ex := dp - 1 in
    mant ++ py "e" ++ (if ex <? 0 then py "-" else py "+") ++ two_digits (Z.abs ex)
  else if dp <=? 0 then
    py "0." ++ times 48%N (Z.to_nat (- dp)) ++ ds
  else if dp <? n then
    firstn (Z.to_nat dp) ds ++ py "." ++ skipn (Z.to_nat dp) ds
  else
    ds ++ times 48%N (Z.to_nat (dp - n)) ++ py ".0".

Definition sign_str (s : bool) : pystr := if s then py "-" else [].

(** [repr(x)], which is also [str(x)] and [format(x, "")]. *)
Definition repr (x : float) : pystr :=
  match Prim2SF x with
  | S754_nan => py "nan"
  | S754_infinity s => sign_str s ++ py "inf"
  | S754_zero s => sign_str s ++ py "0.0"
  | S754_finite s m e =>
      let '(ds, dp) := shortest_digits m e in
      sign_str s ++ repr_layout ds dp
  end.

(** *** [format(x, ".2f")] *)
Definition format_2f (x : float) : pystr :=
  match Prim2SF x with
  | S754_nan => py "nan"
  | S754_infinity s => sign_str s ++ py "inf"
  | S754_zero s => sign_str s ++ py "0.00"
  | S754_finite s m e =>
      let h := hundredths m e in
      sign_str s ++ digits_of (Z.to_N (h / 100)) ++ py "." ++ two_digits (h mod 100)
  end.

(** *** [float(s)] on a string

    Decimal digits and white space outside ASCII are first brought to
    ASCII; then leading and trailing ASCII white space is dropped,
    underscores may separate digits, and what remains is a signed decimal
    with optional fraction and exponent, or one of [inf], [infinity], [nan]
    in any letter case.  [None] stands for the [ValueError]. *)

(** White space outside ASCII, as [str.isspace] knows it. *)
Definition is_unicode_space (c : N) : bool :=
  ((c =? 133) || (c =? 160) || (c =? 5760)
   || ((8192 <=? c) && (c <=? 8202))
   || (c =? 8232) || (c =? 8233) || (c =? 8239) || (c =? 8287)
   || (c =? 12288))%N.

(** The code points of the digit zero of every decimal digit system of
    Unicode 14.0; the digits one to nine follow each of them. *)
Definition decimal_zeros : list N :=
  [ 48; 1632; 1776; 1984; 2406; 2534; 2662; 2790; 2918; 3046; 3174; 3302;
    3430; 3558; 3664; 3792; 3872; 4160; 4240; 6112; 6160; 6470; 6608; 6784;
    6800; 6992; 7088; 7232; 7248; 42528; 43216; 43264; 43472; 43504; 43600;
    44016; 65296; 66720; 68912; 69734; 69872; 69942; 70096; 70384; 70736;
    70864; 71248; 71360; 71472; 71904; 72016; 72784; 73040; 73120; 92768;
    92864; 93008; 120782; 120792; 120802; 120812; 120822; 123200; 123632;
    125264; 130032 ]%N.

(** The value of a decimal digit, [None] for any other character. *)
Definition to_decimal (c : N) : option N :=
  match find (fun zero => (zero <=? c) && (c <? zero + 10))%N decimal_zeros with
  | Some zero => Some (c - zero)%N
  | None => None
  end.

(** A string that is not all ASCII, character by character: white space
    becomes a blank and a decimal digit its ASCII digit; at any other
    character outside ASCII a question mark ends the result. *)
Fixpoint transform (s : pystr) : pystr :=
  match s with
  | [] => []
  | c :: rest =>
      if (c <? 127)%N then c :: transform rest
      else if is_unicode_space c then 32%N :: transform rest
      else match to_decimal c with
           | Some d => (48 + d)%N :: transform rest
           | None => [63%N]
           end
  end.

(** An all-ASCII string is taken as it is. *)
Definition to_ascii (s : pystr) : pystr :=
  if forallb (fun c => (c <? 128)%N) s then s else transform s.

(** ASCII white space: blank, tab, line feed, vertical tab, form feed and
    carriage return. *)
Definition is_space (c : N) : bool :=
  (((9 <=? c) && (c <=? 13)) || (c =? 32))%N.

(** An ASCII digit. *)
Definition is_digit (c : N) : bool := ((48 <=? c) && (c <=? 57))%N.

Fixpoint lstrip (s : pystr) : pystr :=
  match s with
  | c :: rest => if is_space c then lstrip rest else s
  | [] => []
  end.

Definition strip (s : pystr) : pystr := rev (lstrip (rev (lstrip s))).

(** Underscores are allowed only between two digits; they are removed. *)
Fixpoint drop_underscores (prev : N) (s : pystr) : option pystr :=
  match s with
  | [] => if (prev =? 95)%N then None else Some []
  | c :: rest =>
      if (c =? 95)%N then
        if is_digit prev then drop_underscores c rest else None
      else if (prev =? 95)%N && negb (is_digit c) then None
      else option_map (cons c) (drop_underscores c rest)
  end.

(** Leading digits of [s]: their value appended to [acc], their number
    added to [cnt], and the rest of [s]. *)
Fixpoint digits (s : pystr) (acc cnt : Z) : Z * Z * pystr :=
  match s with
  | c :: rest =>
      if is_digit c then digits rest (acc * 10 + (Z.of_N c - 48)) (cnt + 1)
      else (acc, cnt, s)
  | [] => (acc, cnt, [])
  end.

Definition sign_of (s : pystr) : bool * pystr :=
  match s with
  | 45%N :: rest => (true, rest)
  | 43%N :: rest => (false, rest)
  | _ => (false, s)
  end.

Definition lower (c : N) : N :=
  if ((65 <=? c) && (c <=? 90))%N then (c + 32)%N else c.

(** The exponent part at the head of [s], when there is a well-formed one. *)
Definition exponent (s : pystr) : Z * pystr :=
  match s with
  | c :: rest =>
      if (lower c =? 101)%N then
        let '(neg, rest') := sign_of rest in
        let '(ev, cnt, rest'') := digits rest' 0 0 in
        if cnt =? 0 then (0, s)
        else ((if neg then - ev else ev), rest'')
      else (0, s)
  | [] => (0, [])
  end.

Definition number (neg : bool) (s : pystr) : option spec_float :=
  let '(iv, ic, rest) := digits s 0 0 in
  let '(fv, fc, rest) :=
    match rest with
    | 46%N :: rest' => digits rest' iv 0
    | _ => (iv, 0, rest)
    end in
  if ic + fc =? 0 then None
  else
    let '(ev, rest) := exponent rest in
    match rest with
    | [] => Some (of_decimal neg fv (ev - fc))
    | _ => None
    end.

Definition inf_or_nan (neg : bool) (s : pystr) : option spec_float :=
  let w := map lower s in
  if PyStr.eqb w (py "inf") || PyStr.eqb w (py "infinity")
  then Some (S754_infinity neg)
  else if PyStr.eqb w (py "nan") then Some S754_nan
  else None.

Definition float_of_str (s : pystr) : option float :=
  match drop_underscores 0%N (strip (to_ascii s)) with
  | None => None
  | Some t =>
      let '(neg, body) := sign_of t in
      match number neg body with
      | Some x => Some (SF2Prim x)
      | None => option_map SF2Prim (inf_or_nan neg body)
      end
  end.

End PyFloat.

Import PyFloat.

(* ================================================================== *)
(** ** Exceptions and output *)

(** What the program does to the outside world. *)
Inductive event : Type :=
| Printed (text : pystr)        (** [print(text)] *)
| Slept (seconds : float)       (** [time.sleep(seconds)] *)
| Asked (symbol : pystr).       (** [yf.Ticker(symbol)] *)

(** How an evaluation ends: with a value, or with an exception [e] that is an
    instance of [Exception], kept as its message [str(e)]. *)
Inductive outcome (A : Type) : Type :=
| Normal (a : A)
| Raised (message : pystr).

Arguments Normal {A} a.
Arguments Raised {A} message.

(** A computation: the events it performed, in order, and how it ended. *)
Definition Py (A : Type) : Type := list event * outcome A.

Definition ret {A} (a : A) : Py A := ([], Normal a).

Definition bind {A B} (m : Py A) (f : A -> Py B) : Py B :=
  match m with
  | (tr, Normal a) => let '(tr', r) := f a in (tr ++ tr', r)
  | (tr, Raised e) => (tr, Raised e)
  end.

Notation "x <- m ;; k" := (bind m (fun x => k))
  (at level 61, m at next level, right associativity).
Notation "m ;; k" := (bind m (fun _ => k))
  (at level 61, right associativity).

Definition emit (ev : event) : Py unit := ([ev], Normal tt).

(** [print(text)] *)
Definition print (text : pystr) : Py unit := emit (Printed text).

(** An expression whose evaluation has no effect but may raise. *)
Definition eval {A} (r : outcome A) : Py A := ([], r).

(** [try: body / except Exception as e: handler(e)] *)
Definition try_except {A} (body : Py A) (handler : pystr -> Py A) : Py A :=
  match body with
  | (tr, Normal a) => (tr, Normal a)
  | (tr, Raised e) => let '(tr', r) := handler e in (tr ++ tr', r)
  end.

(** [try: v = body / except: pass], where [v] held [unchanged] before. *)
Definition try_pass {A} (unchanged : A) (body : Py A) : Py A :=
  try_except body (fun _ => ret unchanged).

(** [if c: body] *)
Definition when (c : bool) (body : Py unit) : Py unit :=
  if c then body else ret tt.

Definition trace {A} (m : Py A) : list event := fst m.
Definition result {A} (m : Py A) : outcome A := snd m.

(* ================================================================== *)
(** ** The quote provider *)

(** What an object of [yf.Ticker] answers.  Each attribute read either
    yields a value or raises; reading it again gives the same answer.
    A missing attribute ([hasattr] false) is a read that raises
    [AttributeError]. Numeric fields hold [None] or a float. *)
Module Yf.

(** [stock.info]: what [info.get(key)] gives for the keys that are read. *)
Record Info : Type := {
  shortName : option pystr;
  currentPrice : option float;
  regularMarketPrice : option float;
  fiftyTwoWeekHigh : option float;
  regularMarketChangePercent : option float
}.

(** [stock.fast_info] *)
Record FastInfo : Type := {
  last_price : outcome (option float);
  year_high : outcome (option float)
}.

(** [stock.history(period="1d", timeout=10)]: the rows of the [Close]
    column, oldest first, or [None] when the frame has no such column.
    The frame is empty when it has no rows. *)
Record DataFrame : Type := {
  Close : option (list float)
}.

Record Stock : Type := {
  info : outcome (option Info);   (** [None]: a false value, [None] or [{}] *)
  fast_info : outcome FastInfo;
  history : outcome DataFrame
}.

(** [column.iloc[-1]] *)
Definition iloc_last (column : list float) : option float :=
  match rev column with
  | x :: _ => Some x
  | [] => None
  end.

End Yf.

(** [yf.Ticker]: the provider, by symbol. *)
Definition provider : Type := pystr -> outcome Yf.Stock.

(* ================================================================== *)
(** ** [get_stock_data] *)

(** The dictionary built by [get_stock_data]. *)
Record TickerRecord : Type := {
  stock_name : pystr;
  current_price : option float;
  year_high : option float;
  drop_rate : pystr;
  daily_change : pystr
}.

Definition NA : pystr := py "N/A".

(** [price and not pd.isna(price)], then [float(price)]. *)
Definition usable (v : option float) : option float :=
  match v with
  | Some price => if PyFloat.truthy price && negb (isna price) then Some price else None
  | None => None
  end.

(** [a or b] on values that are [None] or a float. *)
Definition py_or (a b : option float) : option float :=
  match a with
  | Some x => if PyFloat.truthy x then a else b
  | None => b
  end.

(** [(year_high - current_price) / year_high * 100] *)
Definition rate_of (current_price year_high : float) : float :=
  ((year_high - current_price) / year_high * hundred)%float.

(** Step 4: the drawdown string.  No float operation raises here, the
    divisor being positive, so the [try] around it is never left early. *)
Definition drop_rate_of (current_price year_high : option float) : pystr :=
  match current_price, year_high with
  | Some cp, Some yh =>
      if (0 <? yh)%float then
        let rate := rate_of cp yh in
        if negb (isna rate) then py "-" ++ repr (round2 rate) ++ py "%"
        else NA
      else NA
  | _, _ => NA
  end.

Definition get_stock_data (yf : provider) (ticker : pystr) : Py TickerRecord :=
  try_except
    (emit (Asked ticker) ;;
     stock <- eval (yf ticker) ;;
     (* 1. name *)
     stock_name <- try_pass NA
       (info <- eval (Yf.info stock) ;;
        ret match info with
            | Some info =>
                match Yf.shortName info with
                | Some name => if PyStr.truthy name then name else NA
                | None => NA
                end
            | None => NA
            end) ;;
     (* 2. current price, by priority *)
     let current_price : option float := None in
     (* way 1: fast_info *)
     current_price <- try_pass current_price
       (fast <- eval (Yf.fast_info stock) ;;
        price <- eval (Yf.last_price fast) ;;
        ret match usable price with
            | Some p => Some p
            | None => current_price
            end) ;;
     (* way 2: history (1 day) *)
     current_price <-
       match current_price with
       | None =>
           try_pass current_price
             (hist <- eval (Yf.history stock) ;;
              ret match Yf.Close hist with
                  | Some column =>
                      match Yf.iloc_last column with
                      | Some close => Some close
                      | None => current_price
                      end
                  | None => current_price
                  end)
       | Some _ => ret current_price
       end ;;
     (* way 3: info *)
     current_price <-
       match current_price with
       | None =>
           try_pass current_price
             (info <- eval (Yf.info stock) ;;
              ret match info with
                  | Some info =>
                      match usable (py_or (Yf.currentPrice info)
                                          (Yf.regularMarketPrice info)) with
                      | Some p => Some p
                      | None => current_price
                      end
                  | None => current_price
                  end)
       | Some _ => ret current_price
       end ;;
     (* 3. 52-week high, by priority *)
     let year_high : option float := None in
     (* way 1: fast_info *)
     year_high <- try_pass year_high
       (fast <- eval (Yf.fast_info stock) ;;
        high <- eval (Yf.year_high fast) ;;
        ret match usable high with
            | Some h => Some h
            | None => year_high
            end) ;;
     (* way 2: info *)
     year_high <-
       match year_high with
       | None =>
           try_pass year_high
             (info <- eval (Yf.info stock) ;;
              ret match info with
                  | Some info =>
                      match usable (Yf.fiftyTwoWeekHigh info) with
                      | Some h => Some h
                      | None => year_high
                      end
                  | None => year_high
                  end)
       | Some _ => ret year_high
       end ;;
     (* 4. drawdown from the high *)
     let drop_rate := drop_rate_of current_price year_high in
     (* 5. daily change *)
     daily_change <- try_pass NA
       (info <- eval (Yf.info stock) ;;
        ret match info with
            | Some info =>
                match Yf.regularMarketChangePercent info with
                | Some change_percent =>
                    if negb (isna change_percent)
                    then repr (round2 change_percent) ++ py "%"
                    else NA
                | None => NA
                end
            | None => NA
            end) ;;
     ret {| stock_name := stock_name;
            current_price := current_price;
            year_high := year_high;
            drop_rate := drop_rate;
            daily_change := daily_change |})
    (fun e =>
       print (py "  " ++ ticker ++ py " 데이터 수집 실패: " ++ prefix 50 e ++ py "...") ;;
       ret {| stock_name := NA;
              current_price := None;
              year_high := None;
              drop_rate := NA;
              daily_change := NA |}).

(* ================================================================== *)
(** ** [format_stock_summary] *)

Definition PURPLE : pystr := ESC :: py "[95m".
Definition BLUE : pystr := ESC :: py "[94m".
Definition RED : pystr := ESC :: py "[91m".
Definition reset_code : pystr := ESC :: py "[0m".

Definition price_str (data : TickerRecord) : pystr :=
  match current_price data with
  | Some p => py "$" ++ format_2f p
  | None => py "$0"
  end.

Definition high_str (data : TickerRecord) : pystr :=
  match year_high data with
  | Some h => py "$" ++ format_2f h
  | None => py "$0"
  end.

Definition drop_str (data : TickerRecord) : pystr :=
  if negb (PyStr.eqb (drop_rate data) NA) then drop_rate data else py "-0.00%".

Definition daily_str (data : TickerRecord) : pystr :=
  if negb (PyStr.eqb (daily_change data) NA) then daily_change data else py "0.00%".

(** Colour of the drawdown. *)
Definition get_drop_color_code (drop_rate_str : pystr) : pystr :=
  if PyStr.eqb drop_rate_str NA || PyStr.eqb drop_rate_str (py "-0.00%") then []
  else
    match float_of_str (remove_char 37%N (remove_char 45%N drop_rate_str)) with
    | Some rate_num => if (ten <=? rate_num)%float then PURPLE else []
    | None => []
    end.

(** Colour of the daily change. *)
Definition get_daily_color_code (daily_change_str : pystr) : pystr :=
  if PyStr.eqb daily_change_str NA || PyStr.eqb daily_change_str (py "0.00%") then BLUE
  else
    match float_of_str (remove_char 37%N daily_change_str) with
    | Some rate_num => if (rate_num <? 0)%float then RED else BLUE
    | None => BLUE
    end.

Definition colored_drop_str (data : TickerRecord) : pystr :=
  let drop_color_code := get_drop_color_code (drop_str data) in
  if PyStr.truthy drop_color_code
  then drop_color_code ++ drop_str data ++ reset_code
  else drop_str data.

Definition colored_daily_str (data : TickerRecord) : pystr :=
  let daily_color_code := get_daily_color_code (daily_str data) in
  daily_color_code ++ daily_str data ++ reset_code.

Definition header_line (data : TickerRecord) (ticker : pystr) : pystr :=
  py "=== " ++ ticker ++ py "(" ++ stock_name data ++ py ") ===".

Definition price_line (data : TickerRecord) : pystr :=
  py "현재가 : " ++ price_str data.

Definition high_line (data : TickerRecord) : pystr :=
  py "52주 최고가 : " ++ high_str data.

Definition drop_line (data : TickerRecord) : pystr :=
  py "고점대비하락률 : " ++ colored_drop_str data.

Definition daily_line (data : TickerRecord) : pystr :=
  py "일 등락율 : " ++ colored_daily_str data.

Definition format_stock_summary (data : TickerRecord) (ticker : pystr) : pystr :=
  header_line data ticker ++ [LF]
  ++ price_line data ++ [LF]
  ++ high_line data ++ [LF]
  ++ drop_line data ++ [LF]
  ++ daily_line data.

(* ================================================================== *)
(** ** [main] *)

(** Tickers by sector, in the order of the dictionary. *)
Definition SECTOR_TICKERS : list (pystr * list pystr) :=
  [ (py "🏢 기술주 (Technology)",
      map py ["AAPL"; "MSFT"; "GOOGL"; "META"; "NVDA"; "ORCL"; "AVGO"; "AMD"; "PLTR"]%string);
    (py "🛒 소비재/전자상거래 (Consumer & E-commerce)",
      map py ["AMZN"; "TSLA"; "WMT"; "WM"]%string);
    (py "💳 금융 (Financial)",
      map py ["V"; "BRK-B"]%string);
    (py "🏗️ 산업/인프라 (Industrial & Infrastructure)",
      map py ["PAVE"; "GEV"]%string);
    (py "🚀 우주/방산 (Aerospace & Defense)",
      map py ["RKLB"]%string);
    (py "💰 비트코인/암호화폐 (Cryptocurrency)",
      map py ["BITQ"; "HOOD"]%string);
    (py "📈 ETF (Exchange Traded Funds)",
      map py ["QQQM"; "IGV"; "XSW"; "XLF"; "SCHD"; "DGRW"; "XLV"; "MGK"; "SPYV"]%string) ].

Definition len {A} (l : list A) : Z := Z.of_nat (List.length l).

(** [sum(len(tickers) for tickers in table.values())] *)
Definition total_of (table : list (pystr * list pystr)) : Z :=
  fold_left Z.add (map (fun item => len (snd item)) table) 0%Z.

Definition delay : float := 0.5%float.

(** The inner loop, [for i, ticker in enumerate(tickers)], from index [i]
    on; [n] is [len(tickers)].  Yields the ticker count reached. *)
Fixpoint for_tickers (yf : provider) (total_tickers n i : Z)
    (tickers : list pystr) (current_ticker_count : Z) : Py Z :=
  match tickers with
  | [] => ret current_ticker_count
  | ticker :: rest =>
      let current_ticker_count := (current_ticker_count + 1)%Z in
      stock_data <- get_stock_data yf ticker ;;
      print (format_stock_summary stock_data ticker) ;;
      when (i <? n - 1)%Z (print (LF :: py "---")) ;;
      when (current_ticker_count <? total_tickers)%Z (emit (Slept delay)) ;;
      for_tickers yf total_tickers n (i + 1)%Z rest current_ticker_count
  end.

(** The outer loop, [for sector_name, tickers in table.items()]. *)
Fixpoint for_sectors (yf : provider) (total_tickers : Z)
    (items : list (pystr * list pystr)) (current_ticker_count : Z) : Py Z :=
  match items with
  | [] => ret current_ticker_count
  | (sector_name, tickers) :: rest =>
      print (LF :: times 61%N 60) ;;
      print sector_name ;;
      print (times 61%N 60 ++ [LF]) ;;
      current_ticker_count <-
        for_tickers yf total_tickers (len tickers) 0 tickers current_ticker_count ;;
      print [LF] ;;
      for_sectors yf total_tickers rest current_ticker_count
  end.

(** The body of [main] over a sector table. *)
Definition run (table : list (pystr * list pystr)) (yf : provider) : Py unit :=
  print (py "Python 주식 포트폴리오 분석을 시작합니다..." ++ [LF]) ;;
  let total_tickers := total_of table in
  let current_ticker_count := 0%Z in
  for_sectors yf total_tickers table current_ticker_count ;;
  print (py "모든 분석이 완료되었습니다!").

Definition main (yf : provider) : Py unit := run SECTOR_TICKERS yf.

(* ================================================================== *)
(** ** What a fetch reads, path by path

    The value each retrieval path offers, a failed read offering nothing,
    and the record these values make.  [get_stock_data] is shown below to
    compute exactly this record. *)

(** A read that raised offers nothing. *)
Definition attempt {A} (r : outcome (option A)) : option A :=
  match r with
  | Normal v => v
  | Raised _ => None
  end.

Definition fast_last_price (stock : Yf.Stock) : option float :=
  match Yf.fast_info stock with
  | Normal fast => attempt (Yf.last_price fast)
  | Raised _ => None
  end.

Definition fast_year_high (stock : Yf.Stock) : option float :=
  match Yf.fast_info stock with
  | Normal fast => attempt (Yf.year_high fast)
  | Raised _ => None
  end.

Definition last_close (stock : Yf.Stock) : option float :=
  match Yf.history stock with
  | Normal hist =>
      match Yf.Close hist with
      | Some column => Yf.iloc_last column
      | None => None
      end
  | Raised _ => None
  end.

Definition metadata (stock : Yf.Stock) : option Yf.Info := attempt (Yf.info stock).

Definition metadata_price (stock : Yf.Stock) : option float :=
  match metadata stock with
  | Some info => py_or (Yf.currentPrice info) (Yf.regularMarketPrice info)
  | None => None
  end.

Definition metadata_high (stock : Yf.Stock) : option float :=
  match metadata stock with
  | Some info => Yf.fiftyTwoWeekHigh info
  | None => None
  end.

(** The first candidate that offers a value. *)
Fixpoint first_of (candidates : list (option float)) : option float :=
  match candidates with
  | [] => None
  | Some x :: _ => Some x
  | None :: rest => first_of rest
  end.

Definition price_of (stock : Yf.Stock) : option float :=
  first_of [usable (fast_last_price stock); last_close stock; usable (metadata_price stock)].

Definition high_of (stock : Yf.Stock) : option float :=
  first_of [usable (fast_year_high stock); usable (metadata_high stock)].

Definition name_of (stock : Yf.Stock) : pystr :=
  match metadata stock with
  | Some info =>
      match Yf.shortName info with
      | Some name => if PyStr.truthy name then name else NA
      | None => NA
      end
  | None => NA
  end.

Definition change_of (stock : Yf.Stock) : pystr :=
  match metadata stock with
  | Some info =>
      match Yf.regularMarketChangePercent info with
      | Some change_percent =>
          if negb (isna change_percent)
          then repr (round2 change_percent) ++ py "%"
          else NA
      | None => NA
      end
  | None => NA
  end.

Definition record_of (stock : Yf.Stock) : TickerRecord :=
  {| stock_name := name_of stock;
     current_price := price_of stock;
     year_high := high_of stock;
     drop_rate := drop_rate_of (price_of stock) (high_of stock);
     daily_change := change_of stock |}.

(** The record of a fetch whose provider call failed. *)
Definition unavailable : TickerRecord :=
  {| stock_name := NA;
     current_price := None;
     year_high := None;
     drop_rate := NA;
     daily_change := NA |}.

(** The diagnostic printed for an error message. *)
Definition diagnostic (ticker message : pystr) : pystr :=
  py "  " ++ ticker ++ py " 데이터 수집 실패: " ++ prefix 50 message ++ py "...".

(* ================================================================== *)
(** ** Signs of binary64 values *)

(** [x] is a zero, an infinity or a finite number whose sign bit is [s]
    (so it is not a NaN). *)
Definition has_sign (s : bool) (x : spec_float) : bool :=
  match x with
  | S754_zero s' | S754_infinity s' | S754_finite s' _ _ => Bool.eqb s s'
  | S754_nan => false
  end.

(* ================================================================== *)
(** ** The fetch as the specification words it *)

(** The drawdown as the specification states it: the rounded rate whenever
    both values are present and the high is positive. *)
Definition drawdown_as_claimed (r : TickerRecord) : pystr :=
  match current_price r, year_high r with
  | Some cp, Some yh =>
      if (0 <? yh)%float then py "-" ++ repr (round2 (rate_of cp yh)) ++ py "%"
      else NA
  | _, _ => NA
  end.

(** A value that is neither null nor NaN. *)
Definition valid (v : option float) : option float :=
  match v with
  | Some x => if isna x then None else Some x
  | None => None
  end.

(** The current price as the specification states it: the first value that
    is neither null nor NaN, in the order fast quote, last close, metadata
    current price, metadata regular-market price. *)
Definition price_as_claimed (stock : Yf.Stock) : option float :=
  first_of [ valid (fast_last_price stock);
             valid (last_close stock);
             valid (match metadata stock with
                    | Some info => Yf.currentPrice info
                    | None => None
                    end);
             valid (match metadata stock with
                    | Some info => Yf.regularMarketPrice info
                    | None => None
                    end) ].

(* ================================================================== *)
(** ** Sample providers *)

(** A provider that answers every symbol with [stock]. *)
Definition answering (stock : Yf.Stock) : provider := fun _ => Normal stock.

(** A provider whose call raises for every symbol. *)
Definition failing (message : pystr) : provider := fun _ => Raised message.

(** A fast quote with the given last price and year high. *)
Definition quote (price high : option float) : Yf.FastInfo :=
  {| Yf.last_price := Normal price; Yf.year_high := Normal high |}.

(** A stock that answers only its fast quote. *)
Definition quoted (price high : option float) : Yf.Stock :=
  {| Yf.info := Raised (py "no metadata");
     Yf.fast_info := Normal (quote price high);
     Yf.history := Raised (py "no history") |}.

(** A stock whose fast quote gives a zero price and whose history closes at
    5. *)
Definition zero_quote_stock : Yf.Stock :=
  {| Yf.info := Raised (py "no metadata");
     Yf.fast_info := Normal (quote (Some 0%float) (Some 10%float));
     Yf.history := Normal {| Yf.Close := Some [4%float; 5%float] |} |}.

(** A stock without fast quote, known by its history and metadata. *)
Definition history_stock : Yf.Stock :=
  {| Yf.info := Normal (Some {| Yf.shortName := Some (py "Apple Inc.");
                                Yf.currentPrice := Some 151%float;
                                Yf.regularMarketPrice := None;
                                Yf.fiftyTwoWeekHigh := Some 200%float;
                                Yf.regularMarketChangePercent := Some (-1.5)%float |});
     Yf.fast_info := Raised (py "no fast quote");
     Yf.history := Normal {| Yf.Close := Some [149%float; 150%float] |} |}.

Definition AAPL : pystr := py "AAPL".

(* ================================================================== *)
(** ** Numbers read back from the percentage strings *)

(** What a drawdown string parses to once every ["-"] and ["%"] is
    stripped. *)
Definition drop_number (s : pystr) : option float :=
  float_of_str (remove_char 37%N (remove_char 45%N s)).

(** The drawdown string parses as a number that is at least 10. *)
Definition at_least_ten (s : pystr) : bool :=
  match drop_number s with
  | Some x => (ten <=? x)%float
  | None => false
  end.

(** What a daily-change string parses to once every ["%"] is stripped. *)
Definition daily_number (s : pystr) : option float :=
  float_of_str (remove_char 37%N s).

(** The daily-change string parses as a number below zero. *)
Definition below_zero (s : pystr) : bool :=
  match daily_number s with
  | Some x => (x <? 0)%float
  | None => false
  end.

(* ================================================================== *)
(** ** Sample records *)

(** A record with a price of 150 under a high of 200, down 1.5% today. *)
Definition apple : TickerRecord :=
  {| stock_name := py "Apple Inc.";
     current_price := Some 150%float;
     year_high := Some 200%float;
     drop_rate := py "-25.0%";
     daily_change := py "-1.5%" |}.

(** A record whose name holds a line feed. *)
Definition two_line_name : TickerRecord :=
  {| stock_name := py "Apple" ++ [LF] ++ py "Inc.";
     current_price := Some 150%float;
     year_high := Some 200%float;
     drop_rate := py "-25.0%";
     daily_change := py "-1.5%" |}.

(* ================================================================== *)
(** ** What a run does to the provider *)

(** The provider calls and pauses of a trace, printing left out. *)
Definition calls (tr : list event) : list event :=
  filter (fun ev => match ev with Printed _ => false | _ => true end) tr.

(** The symbols asked of the provider, in order. *)
Definition asked (tr : list event) : list pystr :=
  flat_map (fun ev => match ev with Asked symbol => [symbol] | _ => [] end) tr.

(** The pauses of a trace, in order. *)
Definition pauses (tr : list event) : list float :=
  flat_map (fun ev => match ev with Slept seconds => [seconds] | _ => [] end) tr.

(** The tickers of a table: sector by sector, each in its own order. *)
Definition all_tickers (table : list (pystr * list pystr)) : list pystr :=
  List.concat (map snd table).

(** One call per ticker and one pause between two consecutive tickers. *)
Fixpoint schedule (tickers : list pystr) : list event :=
  match tickers with
  | [] => []
  | ticker :: rest =>
      Asked ticker :: match rest with
                      | [] => []
                      | _ :: _ => Slept delay :: schedule rest
                      end
  end.

(** The calls and pauses of the loops when [count] tickers are done: a
    pause follows a ticker while the count stays below [total]. *)
Fixpoint paced (total count : Z) (tickers : list pystr) : list event :=
  match tickers with
  | [] => []
  | ticker :: rest =>
      Asked ticker
        :: (if (count + 1 <? total)%Z then [Slept delay] else [])
        ++ paced total (count + 1) rest
  end.

(* ================================================================== *)
(** ** More sample providers *)

(** A stock whose every read raises. *)
Definition silent_stock : Yf.Stock :=
  {| Yf.info := Raised (py "no metadata");
     Yf.fast_info := Raised (py "no fast quote");
     Yf.history := Raised (py "no history") |}.

(** A stock known by its metadata only, unchanged on the day. *)
Definition flat_day_stock : Yf.Stock :=
  {| Yf.info := Normal (Some {| Yf.shortName := Some (py "Waste Management");
                                Yf.currentPrice := Some 210%float;
                                Yf.regularMarketPrice := None;
                                Yf.fiftyTwoWeekHigh := Some 230%float;
                                Yf.regularMarketChangePercent := Some 0%float |});
     Yf.fast_info := Raised (py "no fast quote");
     Yf.history := Raised (py "no history") |}.

(* ================================================================== *)
(** ** What a run prints and does, position by position *)

Definition is_nil {A} (l : list A) : bool :=
  match l with
  | [] => true
  | _ :: _ => false
  end.

(** The record a fetch ends with (no fetch raises; [unavailable] stands in
    for that case). *)
Definition fetched (yf : provider) (ticker : pystr) : TickerRecord :=
  match result (get_stock_data yf ticker) with
  | Normal r => r
  | Raised _ => unavailable
  end.

(** The events of one ticker: those of its fetch, its summary, a separator
    unless it is the last of its sector, a pause unless it is the last
    overall. *)
Definition ticker_events (yf : provider) (ticker : pystr)
    (last_of_sector last_overall : bool) : list event :=
  trace (get_stock_data yf ticker)
  ++ [Printed (format_stock_summary (fetched yf ticker) ticker)]
  ++ (if last_of_sector then [] else [Printed (LF :: py "---")])
  ++ (if last_overall then [] else [Slept delay]).

(** The events of the tickers of one sector; [none_after] tells that no
    ticker follows in the later sectors. *)
Fixpoint sector_events (yf : provider) (tickers : list pystr) (none_after : bool)
    : list event :=
  match tickers with
  | [] => []
  | ticker :: rest =>
      ticker_events yf ticker (is_nil rest) (is_nil rest && none_after)
      ++ sector_events yf rest none_after
  end.

(** The events of a table: per sector its three header lines, its tickers
    and a blank line. *)
Fixpoint table_events (yf : provider) (table : list (pystr * list pystr))
    : list event :=
  match table with
  | [] => []
  | (sector_name, tickers) :: rest =>
      [ Printed (LF :: times 61%N 60);
        Printed sector_name;
        Printed (times 61%N 60 ++ [LF]) ]
      ++ sector_events yf tickers (is_nil (List.concat (map snd rest)))
      ++ [Printed [LF]]
      ++ table_events yf rest
  end.

(* ================================================================== *)
(** * Properties *)

(** ** Strings *)

Lemma eqb_eq (a b : pystr) : PyStr.eqb a b = true <-> a = b.
Proof.
  revert b; induction a as [|x a IH]; intros [|y b]; simpl; split;
    try congruence; try reflexivity.
  - intros H. apply andb_true_iff in H as [Hx Hab].
    apply N.eqb_eq in Hx. apply IH in Hab. congruence.
  - intros H. injection H as -> ->. rewrite N.eqb_refl. simpl. now apply IH.
Qed.

Lemma eqb_neq (a b : pystr) : PyStr.eqb a b = false <-> a <> b.
Proof.
  split.
  - intros H E. apply eqb_eq in E. congruence.
  - intros H. destruct (PyStr.eqb a b) eqn:E; [apply eqb_eq in E; contradiction | reflexivity].
Qed.

(** ** The fetch, path by path *)

Lemma get_stock_data_found (yf : provider) (ticker : pystr) (stock : Yf.Stock) :
  yf ticker = Normal stock ->
  get_stock_data yf ticker = ([Asked ticker], Normal (record_of stock)).
Proof.
  intros H. unfold get_stock_data. rewrite H.
  unfold record_of, price_of, high_of, name_of, change_of, metadata_price,
    metadata_high, metadata, last_close, fast_last_price, fast_year_high.
  destruct stock as [i f h]; simpl Yf.info; simpl Yf.fast_info; simpl Yf.history.
  destruct h as [[[column|]]|eh];
    (destruct f as [[[lp|el] [yh|eyh]]|ef];
     (destruct i as [[i|]|ei];
      cbn -[usable py_or drop_rate_of repr round2 isna Yf.iloc_last];
      repeat match goal with
             | |- context [usable None] =>
                 change (usable None) with (@None float);
                 cbn -[usable py_or drop_rate_of repr round2 isna Yf.iloc_last]
             | |- context [usable ?x] =>
                 destruct (usable x);
                 cbn -[usable py_or drop_rate_of repr round2 isna Yf.iloc_last]
             | |- context [Yf.iloc_last ?x] =>
                 destruct (Yf.iloc_last x);
                 cbn -[usable py_or drop_rate_of repr round2 isna Yf.iloc_last]
             end;
      reflexivity)).
Qed.

Lemma get_stock_data_failed (yf : provider) (ticker message : pystr) :
  yf ticker = Raised message ->
  get_stock_data yf ticker =
    ([Asked ticker; Printed (diagnostic ticker message)], Normal unavailable).
Proof.
  intros H. unfold get_stock_data. rewrite H. reflexivity.
Qed.

(** ** Signs through rounding and arithmetic *)

Section Rounding.

Variables prec emax : Z.

Lemma shr_m_of_loc (m : Z) (l : location) : shr_m (shr_record_of_loc m l) = m.
Proof. destruct l as [|[]]; reflexivity. Qed.

Lemma shr_1_nonneg (mrs : shr_record) :
  (0 <= shr_m mrs)%Z -> (0 <= shr_m (shr_1 mrs))%Z.
Proof.
  destruct mrs as [m r s]; simpl.
  destruct m as [|[p|p|]|[p|p|]]; simpl; lia.
Qed.

Lemma iter_pos_invariant {A : Type} (P : A -> Prop) (f : A -> A) :
  (forall x, P x -> P (f x)) -> forall p x, P x -> P (iter_pos f p x).
Proof.
  intros Hf. induction p as [p IH|p IH|]; simpl; intros x Hx; auto.
Qed.

Lemma shr_fexp_nonneg (m e : Z) (l : location) :
  (0 <= m)%Z -> (0 <= shr_m (fst (shr_fexp prec emax m e l)))%Z.
Proof.
  intros Hm. unfold shr_fexp, shr.
  destruct (fexp prec emax (Zdigits2 m + e) - e)%Z as [|p|p]; simpl;
    try (rewrite shr_m_of_loc; exact Hm).
  apply (iter_pos_invariant (fun mrs => (0 <= shr_m mrs)%Z)).
  - exact shr_1_nonneg.
  - rewrite shr_m_of_loc; exact Hm.
Qed.

Lemma round_nearest_even_nonneg (m : Z) (l : location) :
  (0 <= m)%Z -> (0 <= round_nearest_even m l)%Z.
Proof.
  intros Hm. destruct l as [|[]]; simpl; try lia.
  destruct (Z.even m); lia.
Qed.

Lemma binary_round_aux_sign (s : bool) (m e : Z) (l : location) :
  (0 <= m)%Z -> has_sign s (binary_round_aux prec emax s m e l) = true.
Proof.
  intros Hm. unfold binary_round_aux.
  pose proof (shr_fexp_nonneg m e l Hm) as H1.
  destruct (shr_fexp prec emax m e l) as [mrs' e']. simpl in H1.
  pose proof (shr_fexp_nonneg
                (round_nearest_even (shr_m mrs') (loc_of_shr_record mrs'))
                e' loc_Exact (round_nearest_even_nonneg _ _ H1)) as H2.
  destruct (shr_fexp prec emax _ e' loc_Exact) as [mrs'' e'']. simpl in H2.
  destruct (shr_m mrs'') as [|q|q]; [| |lia].
  - simpl. apply eqb_reflx.
  - destruct (e'' <=? emax - prec)%Z; simpl; apply eqb_reflx.
Qed.

Lemma binary_round_sign (s : bool) (m : positive) (e : Z) :
  has_sign s (binary_round prec emax s m e) = true.
Proof.
  unfold binary_round.
  destruct (shl_align m e (fexp prec emax (Z.pos (digits2_pos m) + e))) as [mz ez].
  apply binary_round_aux_sign. lia.
Qed.

Lemma binary_normalize_sign (n e : Z) (s : bool) :
  has_sign (if (n =? 0)%Z then s else (n <? 0)%Z) (binary_normalize prec emax n e s) = true.
Proof.
  destruct n as [|p|p]; simpl.
  - apply eqb_reflx.
  - apply binary_round_sign.
  - apply binary_round_sign.
Qed.

Lemma SFldexp_sign (s : bool) (x : spec_float) (e : Z) :
  has_sign s x = true -> has_sign s (SFldexp prec emax x e) = true.
Proof.
  destruct x as [s'|s'| |s' m ex]; simpl; intros H; try exact H.
  apply eqb_prop in H; subst s'. apply binary_round_sign.
Qed.

Lemma SFopp_sign (s : bool) (x : spec_float) :
  has_sign s x = true -> has_sign (negb s) (SFopp x) = true.
Proof.
  destruct x as [s'|s'| |s' m ex]; simpl; intros H; try discriminate;
    apply eqb_prop in H; subst s'; apply eqb_reflx.
Qed.

Lemma SFmul_sign (x : spec_float) (m : positive) (e : Z) :
  has_sign true x = true ->
  has_sign true (SFmul prec emax x (S754_finite false m e)) = true.
Proof.
  destruct x as [[|]|[|]| |[|] mx ex]; simpl; intros H; try discriminate;
    try reflexivity.
  apply binary_round_aux_sign. lia.
Qed.

Lemma SFdiv_core_nonneg (m1 m2 : positive) (e1 e2 : Z) :
  (0 <= fst (fst (SFdiv_core_binary prec emax (Z.pos m1) e1 (Z.pos m2) e2)))%Z.
Proof.
  unfold SFdiv_core_binary.
  set (s := (e1 - e2 - _)%Z).
  set (m' := match s with Z0 => Z.pos m1 | Z.pos _ => Z.shiftl (Z.pos m1) s | Z.neg _ => 0%Z end).
  assert (Hm' : (0 <= m')%Z).
  { unfold m'. destruct s; try lia. apply Z.shiftl_nonneg. lia. }
  pose proof (Z_div_mod m' (Z.pos m2) eq_refl) as Hd.
  destruct (Z.div_eucl m' (Z.pos m2)) as [q r]. simpl. nia.
Qed.

Lemma SFdiv_sign (x : spec_float) (m : positive) (e : Z) :
  has_sign true x = true ->
  has_sign true (SFdiv prec emax x (S754_finite false m e)) = true.
Proof.
  destruct x as [[|]|[|]| |[|] mx ex]; intros H; simpl in H; try discriminate;
    try reflexivity.
  unfold SFdiv.
  pose proof (SFdiv_core_nonneg mx m ex e) as Hq.
  destruct (SFdiv_core_binary prec emax (Z.pos mx) ex (Z.pos m) e) as [[mz ez] lz].
  apply binary_round_aux_sign. exact Hq.
Qed.

End Rounding.

(** ** The difference of two ordered binary64 numbers *)

Lemma digits2_pos_size (p : positive) : digits2_pos p = Pos.size p.
Proof. induction p; simpl; congruence. Qed.

Lemma digits2_pos_bounds (m : positive) :
  (Z.pos m < 2 ^ Z.pos (digits2_pos m) <= 2 * Z.pos m)%Z.
Proof.
  rewrite digits2_pos_size. split.
  - pose proof (Pos.size_gt m) as H. rewrite <- Pos2Z.inj_pow. lia.
  - pose proof (Pos.size_le m) as H. rewrite <- Pos2Z.inj_pow. lia.
Qed.

(** A binary64 mantissa has at most 53 bits, and exactly 53 above the
    least exponent. *)
Lemma valid_finite (s : bool) (m : positive) (e : Z) :
  valid_binary (S754_finite s m e) = true ->
  (Z.pos (digits2_pos m) <= 53 /\ -1074 <= e /\
   (-1074 < e -> Z.pos (digits2_pos m) = 53))%Z.
Proof.
  unfold SpecFloat.valid_binary, bounded, canonical_mantissa, fexp, SpecFloat.emin,
    FloatOps.prec, FloatOps.emax.
  intros H. apply andb_true_iff in H as [H _]. apply Z.eqb_eq in H. lia.
Qed.

Lemma iter_xO_double (m d : positive) : (2 * Z.pos m <= Z.pos (Pos.iter xO m d))%Z.
Proof.
  induction d as [|d IH] using Pos.peano_ind.
  - simpl. lia.
  - rewrite Pos.iter_succ. lia.
Qed.

Lemma SFsub_below (m1 m2 : positive) (e1 e2 : Z) :
  valid_binary (S754_finite false m1 e1) = true ->
  valid_binary (S754_finite false m2 e2) = true ->
  SFltb (S754_finite false m1 e1) (S754_finite false m2 e2) = true ->
  has_sign true
    (SFsub prec emax (S754_finite false m1 e1) (S754_finite false m2 e2)) = true.
Proof.
  intros V1 V2 Hlt.
  apply valid_finite in V1 as (D1 & E1 & _).
  apply valid_finite in V2 as (_ & _ & D2).
  pose proof (digits2_pos_bounds m1) as [B1 _].
  pose proof (digits2_pos_bounds m2) as [_ B2].
  assert (P1 : (2 ^ Z.pos (digits2_pos m1) <= 2 ^ 53)%Z)
    by (apply Z.pow_le_mono_r; lia).
  unfold SFltb, SFcompare in Hlt.
  unfold SFsub, cond_Zopp, shl_align.
  destruct (Z.compare_spec e1 e2) as [E|E|E]; try discriminate.
  - (* same exponent: the mantissas are ordered *)
    subst e2. rewrite Z.min_id, Z.sub_diag. simpl fst.
    assert (Hm : (m1 < m2)%positive).
    { unfold Pos.lt, Pos.compare.
      revert Hlt. destruct (Pos.compare_cont Eq m1 m2); intros; congruence. }
    destruct (Z.pos m1 - Z.pos m2)%Z as [|k|k] eqn:Ek; try lia.
    apply binary_round_sign.
  - (* smaller exponent: the larger number has a full mantissa *)
    rewrite Z.min_l by lia. rewrite Z.sub_diag.
    destruct (e1 - e2)%Z as [|d|d] eqn:Ed; try lia. simpl fst.
    pose proof (iter_xO_double m2 d) as Hd.
    rewrite D2 in B2 by lia.
    destruct (Z.pos m1 - Z.pos (Pos.iter xO m2 d))%Z as [|k|k] eqn:Ek; try lia.
    apply binary_round_sign.
Qed.

(** ** Signs of Python floats *)

Lemma Prim2SF_zero : Prim2SF 0%float = S754_zero false.
Proof. reflexivity. Qed.

Lemma Prim2SF_hundred : exists m e, Prim2SF hundred = S754_finite false m e.
Proof. vm_compute. eauto. Qed.

(** Above zero: a positive number or the positive infinity. *)
Lemma positive_cases (x : float) :
  (0 <? x)%float = true ->
  Prim2SF x = S754_infinity false \/ exists m e, Prim2SF x = S754_finite false m e.
Proof.
  rewrite ltb_spec, Prim2SF_zero. unfold SFltb, SFcompare.
  destruct (Prim2SF x) as [s|[|]| |[|] m e]; try discriminate; eauto.
Qed.

(** A current price above a positive year high makes the rate a non-NaN
    float with its sign bit set. *)
Lemma rate_of_sign (cp yh : float) :
  (0 <? yh)%float = true -> (yh <? cp)%float = true ->
  has_sign true (Prim2SF (rate_of cp yh)) = true.
Proof.
  intros Hpos Hlt. unfold rate_of.
  rewrite mul_spec, div_spec, sub_spec.
  destruct Prim2SF_hundred as (mh & eh & ->).
  pose proof (Prim2SF_valid yh) as Vy. pose proof (Prim2SF_valid cp) as Vc.
  rewrite ltb_spec in Hlt.
  destruct (positive_cases yh Hpos) as [Ey|(my & ey & Ey)]; rewrite Ey in *.
  - (* nothing is above the positive infinity *)
    unfold SFltb, SFcompare in Hlt.
    destruct (Prim2SF cp) as [s|[|]| |[|] m e]; discriminate.
  - unfold SF64mul, SF64div, SF64sub.
    apply SFmul_sign, SFdiv_sign.
    destruct (Prim2SF cp) as [s|[|]| |[|] mc ec] eqn:Ec;
      try (unfold SFltb, SFcompare in Hlt; discriminate).
    + reflexivity.
    + apply SFsub_below; assumption.
Qed.

Lemma SFeqb_refl (s : bool) (x : spec_float) :
  has_sign s x = true -> SFeqb x x = true.
Proof.
  unfold SFeqb, SFcompare.
  destruct x as [s'|[|]| |[|] m e]; intros H; try discriminate; try reflexivity;
    rewrite Z.compare_refl, Pos.compare_cont_refl; reflexivity.
Qed.

Lemma isna_of_sign (s : bool) (x : float) :
  has_sign s (Prim2SF x) = true -> isna x = false.
Proof.
  intros H. unfold isna, is_nan. rewrite eqb_spec, (SFeqb_refl s _ H). reflexivity.
Qed.

Lemma sign_of_not_nan (x : float) :
  isna x = false -> exists s, has_sign s (Prim2SF x) = true.
Proof.
  unfold isna, is_nan. rewrite eqb_spec. unfold SFeqb, SFcompare.
  destruct (Prim2SF x) as [s|s| |s m e]; try discriminate; intros _;
    exists s; apply eqb_reflx.
Qed.

(** Converting to a primitive float and back keeps the sign, whatever the
    mantissa. *)
Lemma SF2Prim_sign (s : bool) (z : spec_float) :
  has_sign s z = true -> has_sign s (Prim2SF (SF2Prim z)) = true.
Proof.
  destruct z as [[|]|[|]| |s' m e]; simpl has_sign; intros H; try discriminate;
    try (destruct s; try discriminate; reflexivity).
  apply eqb_prop in H; subst s'. unfold SF2Prim.
  set (pm := of_uint63 (Uint63Axioms.of_Z (Z.pos m))).
  assert (Hf : has_sign false (Prim2SF (Z.ldexp pm e)) = true).
  { rewrite Z_ldexp_spec. apply SFldexp_sign. unfold pm. rewrite of_uint63_spec.
    pose proof (Uint63.to_Z_bounded (Uint63Axioms.of_Z (Z.pos m))) as [Hb _].
    pose proof (binary_normalize_sign prec emax
                  (Uint63Axioms.to_Z (Uint63Axioms.of_Z (Z.pos m))) 0 false) as Hs.
    destruct (Z.eqb_spec (Uint63Axioms.to_Z (Uint63Axioms.of_Z (Z.pos m))) 0).
    - exact Hs.
    - destruct (Z.ltb_spec (Uint63Axioms.to_Z (Uint63Axioms.of_Z (Z.pos m))) 0).
      + lia.
      + exact Hs. }
  destruct s.
  - rewrite opp_spec. apply (SFopp_sign false). exact Hf.
  - exact Hf.
Qed.

Lemma rne_div_nonneg (a b : Z) : (0 <= a)%Z -> (0 < b)%Z -> (0 <= rne_div a b)%Z.
Proof.
  intros Ha Hb. unfold rne_div.
  pose proof (Z.div_pos a b Ha Hb) as Hq.
  destruct (2 * (a mod b) ?= b)%Z; try lia.
  destruct (Z.even (a / b)); lia.
Qed.

Lemma hundredths_nonneg (m : positive) (e : Z) : (0 <= hundredths m e)%Z.
Proof.
  unfold hundredths, fraction.
  destruct e as [|p|p]; apply rne_div_nonneg; try lia;
    try (pose proof (Z.pow_pos_nonneg 2 (Z.pos p)); nia);
    try (apply Z.pow_pos_nonneg; lia).
Qed.

Lemma nearest_sign (s : bool) (n d : Z) :
  (0 <= n)%Z -> (0 < d)%Z -> has_sign s (nearest s n d) = true.
Proof.
  intros Hn Hd. unfold nearest.
  destruct n as [|p|p]; [apply eqb_reflx | | lia].
  destruct d as [|q|q]; try lia.
  pose proof (SFdiv_core_nonneg prec emax p q 0%Z 0%Z) as Hq.
  destruct (SFdiv_core_binary prec emax (Z.pos p) 0 (Z.pos q) 0) as [[mz ez] lz].
  apply binary_round_aux_sign. exact Hq.
Qed.

(** [round(x, 2)] keeps the sign of a non-NaN float. *)
Lemma round2_sign (s : bool) (x : float) :
  has_sign s (Prim2SF x) = true -> has_sign s (Prim2SF (round2 x)) = true.
Proof.
  intros H. unfold round2.
  destruct (Prim2SF x) as [s'|s'| |s' m e] eqn:E; try (rewrite E; exact H).
  simpl in H. apply eqb_prop in H; subst s'.
  apply SF2Prim_sign, nearest_sign; [apply hundredths_nonneg | lia].
Qed.

(** The text of a float whose sign bit is set starts with a minus sign. *)
Lemma repr_minus (x : float) :
  has_sign true (Prim2SF x) = true -> exists rest, repr x = 45%N :: rest.
Proof.
  unfold repr.
  destruct (Prim2SF x) as [[|]|[|]| |[|] m e]; intros H; try discriminate.
  - eexists; reflexivity.
  - eexists; reflexivity.
  - destruct (shortest_digits m e) as [ds dp]. eexists; reflexivity.
Qed.

(* ================================================================== *)
(** ** The fetched record *)

(** Every fetch ends with a record: the one read path by path, or the
    unavailable one. *)
Lemma get_stock_data_result (yf : provider) (ticker : pystr) :
  result (get_stock_data yf ticker) =
    Normal match yf ticker with
           | Normal stock => record_of stock
           | Raised _ => unavailable
           end.
Proof.
  destruct (yf ticker) as [stock|message] eqn:E.
  - rewrite (get_stock_data_found yf ticker stock E). reflexivity.
  - rewrite (get_stock_data_failed yf ticker message E). reflexivity.
Qed.

Lemma fetched_drop_rate (yf : provider) (ticker : pystr) (r : TickerRecord) :
  result (get_stock_data yf ticker) = Normal r ->
  drop_rate r = drop_rate_of (current_price r) (year_high r).
Proof.
  rewrite get_stock_data_result. intros H. injection H as <-.
  destruct (yf ticker); reflexivity.
Qed.

(** C1, as amended.  In every fetch result with current price and year high
    both present, the year high above zero and the rate
    [(year_high - current_price) / year_high * 100] not a NaN, the drawdown
    is that rate rounded to two decimals and written ["-{value}%"]; when a
    value is absent, the year high is not above zero, or the rate is a NaN,
    the drawdown is ["N/A"]. *)
Theorem drawdown_of_fetch (yf : provider) (ticker : pystr) (r : TickerRecord) :
  result (get_stock_data yf ticker) = Normal r ->
  (forall cp yh,
      current_price r = Some cp -> year_high r = Some yh ->
      (0 <? yh)%float = true -> isna (rate_of cp yh) = false ->
      drop_rate r = py "-" ++ repr (round2 (rate_of cp yh)) ++ py "%")
  /\ (current_price r = None -> drop_rate r = NA)
  /\ (year_high r = None -> drop_rate r = NA)
  /\ (forall yh, year_high r = Some yh -> (0 <? yh)%float = false -> drop_rate r = NA)
  /\ (forall cp yh,
         current_price r = Some cp -> year_high r = Some yh ->
         isna (rate_of cp yh) = true -> drop_rate r = NA).
Proof.
  intros H. rewrite (fetched_drop_rate yf ticker r H). unfold drop_rate_of.
  repeat split.
  - intros cp yh -> -> Hpos Hnan. rewrite Hpos, Hnan. reflexivity.
  - intros ->. reflexivity.
  - intros ->. destruct (current_price r); reflexivity.
  - intros yh -> Hpos. rewrite Hpos. destruct (current_price r); reflexivity.
  - intros cp yh -> -> Hnan. rewrite Hnan. destruct (0 <? yh)%float; reflexivity.
Qed.

(** The amended C1 at a price of 150 under a high of 200: the drawdown is
    ["-25.0%"]. *)
Lemma drawdown_of_fetch_witness :
  drop_rate (record_of (quoted (Some 150%float) (Some 200%float))) = py "-25.0%".
Proof.
  refine (proj1 (drawdown_of_fetch
                   (answering (quoted (Some 150%float) (Some 200%float))) AAPL
                   (record_of (quoted (Some 150%float) (Some 200%float))) _)
                150%float 200%float _ _ _ _); reflexivity.
Defined.

(** C1 as stated fails: with an infinite year high both values are present
    and the high is above zero, yet the drawdown is ["N/A"], not the
    rounded rate (which would read ["-nan%"]). *)
Lemma drawdown_not_rounded_rate :
  let r := record_of (quoted (Some 150%float) (Some infinity)) in
  result (get_stock_data (answering (quoted (Some 150%float) (Some infinity))) AAPL)
    = Normal r
  /\ current_price r = Some 150%float
  /\ year_high r = Some infinity
  /\ (0 <? infinity)%float = true
  /\ drop_rate r = py "N/A"
  /\ drawdown_as_claimed r = py "-nan%"
  /\ drop_rate r <> drawdown_as_claimed r.
Proof.
  repeat split; try reflexivity. vm_compute. discriminate.
Qed.

(* ================================================================== *)
(** ** The current price, by priority *)

Lemma first_of_valid_close (fast close meta : option float) :
  (fast = None -> forall x, close = Some x -> isna x = false) ->
  first_of [fast; close; meta] = first_of [fast; valid close; meta].
Proof.
  intros H. destruct fast as [p|]; [reflexivity|].
  destruct close as [x|]; [|reflexivity].
  simpl. rewrite (H eq_refl x eq_refl). reflexivity.
Qed.

(** C3, as amended.  The current price of a fetch is the first usable value
    among, in order: the fast-quote last price, usable when it is neither
    null, zero nor NaN; the most recent daily close of the history; the
    metadata current price, or the regular-market price when the current
    one is null or zero, usable when neither null, zero nor NaN.  A path
    that raises offers nothing and the next one is tried.  The case of a
    NaN close reached by the second path is left out. *)
Theorem current_price_by_priority (yf : provider) (ticker : pystr) (stock : Yf.Stock) :
  yf ticker = Normal stock ->
  (usable (fast_last_price stock) = None ->
   forall x, last_close stock = Some x -> isna x = false) ->
  exists r,
    result (get_stock_data yf ticker) = Normal r
    /\ current_price r =
         first_of [ usable (fast_last_price stock);
                    valid (last_close stock);
                    usable (metadata_price stock) ]
    /\ (forall e, Yf.fast_info stock = Raised e ->
          current_price r =
            first_of [valid (last_close stock); usable (metadata_price stock)])
    /\ (forall e, Yf.history stock = Raised e ->
          current_price r =
            first_of [usable (fast_last_price stock); usable (metadata_price stock)])
    /\ (forall e, Yf.info stock = Raised e ->
          current_price r =
            first_of [usable (fast_last_price stock); valid (last_close stock)]).
Proof.
  intros Hs Hclose. exists (record_of stock).
  rewrite (get_stock_data_found yf ticker stock Hs).
  assert (E : current_price (record_of stock) =
              first_of [ usable (fast_last_price stock);
                         valid (last_close stock);
                         usable (metadata_price stock) ])
    by (apply first_of_valid_close; exact Hclose).
  repeat split; try exact E.
  - intros e He. rewrite E. unfold fast_last_price. rewrite He. reflexivity.
  - intros e He. rewrite E. unfold last_close. rewrite He.
    simpl. destruct (usable (fast_last_price stock)); reflexivity.
  - intros e He. rewrite E. unfold metadata_price, metadata. rewrite He.
    simpl. destruct (usable (fast_last_price stock)); [reflexivity|].
    destruct (valid (last_close stock)); reflexivity.
Qed.

(** The amended C3 at a stock whose fast quote raises: the last close, 150,
    is the current price. *)
Lemma current_price_by_priority_witness :
  exists r,
    result (get_stock_data (answering history_stock) AAPL) = Normal r
    /\ current_price r = Some 150%float.
Proof.
  destruct (current_price_by_priority (answering history_stock) AAPL history_stock)
    as (r & Hr & Hp & _).
  - reflexivity.
  - intros _ x Hx. injection Hx as <-. reflexivity.
  - exists r. split; [exact Hr | exact Hp].
Defined.

(** C3 as stated fails: a fast-quote last price of zero is neither null nor
    NaN, yet the fetch passes over it and takes the last close. *)
Lemma zero_price_passed_over :
  result (get_stock_data (answering zero_quote_stock) AAPL)
    = Normal (record_of zero_quote_stock)
  /\ fast_last_price zero_quote_stock = Some 0%float
  /\ isna 0%float = false
  /\ price_as_claimed zero_quote_stock = Some 0%float
  /\ current_price (record_of zero_quote_stock) = Some 5%float
  /\ current_price (record_of zero_quote_stock) <> price_as_claimed zero_quote_stock.
Proof.
  repeat split; try reflexivity. vm_compute. discriminate.
Qed.

(** The second path has no NaN test: when it is reached and the most recent
    close is a NaN, that NaN becomes the current price, the metadata price
    is not consulted, and the drawdown is ["N/A"]. *)
Example nan_close_selected :
  let stock :=
    {| Yf.info := Yf.info history_stock;
       Yf.fast_info := Raised (py "no fast quote");
       Yf.history := Normal {| Yf.Close := Some [149%float; nan] |} |} in
  get_stock_data (answering stock) AAPL =
    ( [Asked AAPL],
      Normal {| stock_name := py "Apple Inc.";
                current_price := Some nan;
                year_high := Some 200%float;
                drop_rate := py "N/A";
                daily_change := py "-1.5%" |} )
  /\ usable (metadata_price stock) = Some 151%float.
Proof. split; reflexivity. Qed.

(* ================================================================== *)
(** ** A price above the year high *)

(** C9.  In every fetch result whose year high is above zero and whose
    current price is above the year high, the drawdown is ["-"] followed by
    the rounded rate and ["%"], the rounded rate has its sign bit set, and
    so the string begins with ["--"]. *)
Theorem drawdown_double_minus (yf : provider) (ticker : pystr) (r : TickerRecord)
    (cp yh : float) :
  result (get_stock_data yf ticker) = Normal r ->
  current_price r = Some cp -> year_high r = Some yh ->
  (0 <? yh)%float = true -> (yh <? cp)%float = true ->
  drop_rate r = py "-" ++ repr (round2 (rate_of cp yh)) ++ py "%"
  /\ has_sign true (Prim2SF (round2 (rate_of cp yh))) = true
  /\ exists rest, drop_rate r = py "--" ++ rest.
Proof.
  intros H Hcp Hyh Hpos Habove.
  pose proof (rate_of_sign cp yh Hpos Habove) as Hrate.
  pose proof (round2_sign true _ Hrate) as Hround.
  assert (E : drop_rate r = py "-" ++ repr (round2 (rate_of cp yh)) ++ py "%").
  { rewrite (fetched_drop_rate yf ticker r H), Hcp, Hyh. unfold drop_rate_of.
    rewrite Hpos, (isna_of_sign true _ Hrate). reflexivity. }
  split; [exact E|]. split; [exact Hround|].
  destruct (repr_minus _ Hround) as (rest & Hrest).
  exists (rest ++ py "%"). rewrite E, Hrest. reflexivity.
Qed.

(** C9 at a price of 210 above a high of 200: the drawdown reads
    ["--5.0%"]. *)
Lemma drawdown_double_minus_witness :
  drop_rate (record_of (quoted (Some 210%float) (Some 200%float))) = py "--5.0%".
Proof.
  refine (eq_trans
            (proj1 (drawdown_double_minus
                      (answering (quoted (Some 210%float) (Some 200%float))) AAPL
                      (record_of (quoted (Some 210%float) (Some 200%float)))
                      210%float 200%float _ _ _ _ _)) _); reflexivity.
Defined.

(* ================================================================== *)
(** ** The shape of the record *)

(** C10.  Every fetch ends with a record, on the success path and on the
    failure path alike; its name, drawdown and daily change are strings, its
    price and high are floats or absent (all by the type [TickerRecord]);
    the drawdown is ["N/A"] or ["-{x}%"] and the daily change is ["N/A"] or
    ["{x}%"], for a float [x] that is not a NaN. *)
Theorem record_shape (yf : provider) (ticker : pystr) :
  exists r : TickerRecord,
    result (get_stock_data yf ticker) = Normal r
    /\ (drop_rate r = py "N/A"
        \/ exists x, isna x = false /\ drop_rate r = py "-" ++ repr x ++ py "%")
    /\ (daily_change r = py "N/A"
        \/ exists x, isna x = false /\ daily_change r = repr x ++ py "%").
Proof.
  eexists. split; [apply get_stock_data_result|].
  destruct (yf ticker) as [stock|message]; [|split; left; reflexivity].
  split.
  - simpl. unfold drop_rate_of.
    destruct (price_of stock) as [cp|]; [|left; reflexivity].
    destruct (high_of stock) as [yh|]; [|left; reflexivity].
    destruct (0 <? yh)%float; [|left; reflexivity].
    destruct (isna (rate_of cp yh)) eqn:E; [left; reflexivity|].
    right. exists (round2 (rate_of cp yh)). split; [|reflexivity].
    destruct (sign_of_not_nan _ E) as (s & Hs).
    exact (isna_of_sign s _ (round2_sign s _ Hs)).
  - simpl. unfold change_of.
    destruct (metadata stock) as [info|]; [|left; reflexivity].
    destruct (Yf.regularMarketChangePercent info) as [c|]; [|left; reflexivity].
    destruct (isna c) eqn:E; [left; reflexivity|].
    right. exists (round2 c). split; [|reflexivity].
    destruct (sign_of_not_nan _ E) as (s & Hs).
    exact (isna_of_sign s _ (round2_sign s _ Hs)).
Qed.

(* ================================================================== *)
(** ** Colours of the summary *)

Lemma colored_drop_str_cases (data : TickerRecord) :
  colored_drop_str data =
    if at_least_ten (drop_rate data)
    then PURPLE ++ drop_str data ++ reset_code
    else drop_str data.
Proof.
  unfold colored_drop_str, drop_str.
  destruct (PyStr.eqb (drop_rate data) NA) eqn:E1.
  - apply eqb_eq in E1. rewrite E1. reflexivity.
  - simpl negb. cbv iota. unfold get_drop_color_code. rewrite E1. simpl orb.
    destruct (PyStr.eqb (drop_rate data) (py "-0.00%")) eqn:E2.
    + apply eqb_eq in E2. rewrite E2. reflexivity.
    + unfold at_least_ten, drop_number.
      destruct (float_of_str _) as [x|]; [|reflexivity].
      destruct (ten <=? x)%float; reflexivity.
Qed.

Lemma wrapped_differs (color s : pystr) : color ++ s ++ reset_code <> s.
Proof.
  intros H. apply (f_equal (@List.length N)) in H.
  rewrite !length_app in H. simpl in H. lia.
Qed.

(** C4.  The drawdown line is wrapped in the highlight colour exactly when
    the drawdown string, stripped of every ["-"] and ["%"], parses as a
    number that is at least 10, and is left as it is otherwise; ["N/A"] and
    the default ["-0.00%"] are never highlighted, and neither is a string
    that does not parse. *)
Theorem drop_highlight (data : TickerRecord) :
  (at_least_ten (drop_rate data) = true <->
     drop_line data = py "고점대비하락률 : " ++ PURPLE ++ drop_str data ++ reset_code)
  /\ (at_least_ten (drop_rate data) = false <->
        drop_line data = py "고점대비하락률 : " ++ drop_str data)
  /\ (drop_rate data = py "N/A" -> drop_line data = py "고점대비하락률 : -0.00%")
  /\ (drop_rate data = py "-0.00%" -> drop_line data = py "고점대비하락률 : -0.00%")
  /\ (drop_number (drop_rate data) = None ->
        drop_line data = py "고점대비하락률 : " ++ drop_str data).
Proof.
  unfold drop_line. rewrite colored_drop_str_cases.
  repeat split.
  - intros ->. reflexivity.
  - destruct (at_least_ten (drop_rate data)); [reflexivity|].
    intros H. apply app_inv_head in H. symmetry in H.
    destruct (wrapped_differs _ _ H).
  - intros ->. reflexivity.
  - destruct (at_least_ten (drop_rate data)); [|reflexivity].
    intros H. apply app_inv_head in H. destruct (wrapped_differs _ _ H).
  - intros H. unfold drop_str. rewrite H. reflexivity.
  - intros H. unfold drop_str. rewrite H. reflexivity.
  - intros H. unfold at_least_ten. rewrite H. reflexivity.
Qed.

Lemma colored_daily_str_cases (data : TickerRecord) :
  colored_daily_str data =
    (if below_zero (daily_change data) then RED else BLUE)
    ++ daily_str data ++ reset_code.
Proof.
  unfold colored_daily_str, daily_str. f_equal.
  destruct (PyStr.eqb (daily_change data) NA) eqn:E1.
  - apply eqb_eq in E1. rewrite E1. reflexivity.
  - simpl negb. cbv iota. unfold get_daily_color_code. rewrite E1. simpl orb.
    destruct (PyStr.eqb (daily_change data) (py "0.00%")) eqn:E2.
    + apply eqb_eq in E2. rewrite E2. reflexivity.
    + unfold below_zero, daily_number.
      destruct (float_of_str _) as [x|]; [|reflexivity].
      destruct (x <? 0)%float; reflexivity.
Qed.

(** C5.  The daily-change line is wrapped in the negative colour exactly
    when the daily-change string, stripped of ["%"], parses as a number
    below zero, and in the neutral colour otherwise: for zero and positive
    numbers, for ["N/A"] (rendered ["0.00%"]) and for a string that does
    not parse. *)
Theorem daily_colour (data : TickerRecord) :
  (below_zero (daily_change data) = true <->
     daily_line data = py "일 등락율 : " ++ RED ++ daily_str data ++ reset_code)
  /\ (below_zero (daily_change data) = false <->
        daily_line data = py "일 등락율 : " ++ BLUE ++ daily_str data ++ reset_code)
  /\ (forall x, daily_number (daily_change data) = Some x -> (x <? 0)%float = false ->
        daily_line data = py "일 등락율 : " ++ BLUE ++ daily_str data ++ reset_code)
  /\ (daily_change data = py "N/A" ->
        daily_line data = py "일 등락율 : " ++ BLUE ++ py "0.00%" ++ reset_code)
  /\ (daily_number (daily_change data) = None ->
        daily_line data = py "일 등락율 : " ++ BLUE ++ daily_str data ++ reset_code).
Proof.
  unfold daily_line. rewrite colored_daily_str_cases.
  repeat split.
  - intros ->. reflexivity.
  - destruct (below_zero (daily_change data)); [reflexivity|].
    intros H. apply app_inv_head in H. discriminate H.
  - intros ->. reflexivity.
  - destruct (below_zero (daily_change data)); [|reflexivity].
    intros H. apply app_inv_head in H. discriminate H.
  - intros x Hx Hneg. unfold below_zero. rewrite Hx, Hneg. reflexivity.
  - intros H. unfold daily_str. rewrite H. reflexivity.
  - intros H. unfold below_zero. rewrite H. reflexivity.
Qed.

(** Strings at the edge of what [float] reads: a leading file separator
    (U+001C) is not white space to it, so the string does not parse and
    takes the default colour; digits of other scripts are read as
    digits. *)
Example colours_of_unusual_strings :
  get_drop_color_code (28%N :: py "15%") = []
  /\ get_drop_color_code (py "١٥%") = PURPLE
  /\ get_daily_color_code (28%N :: py "-3.2%") = BLUE
  /\ get_daily_color_code (py "-３%") = RED.
Proof. repeat split; reflexivity. Qed.

(* ================================================================== *)
(** ** Defaults of the summary *)

(** C6.  An absent current price renders as ["$0"], an absent year high as
    ["$0"], a drawdown of ["N/A"] as ["-0.00%"] and a daily change of
    ["N/A"] as ["0.00%"]. *)
Theorem render_defaults (data : TickerRecord) :
  (current_price data = None ->
     price_str data = py "$0" /\ price_line data = py "현재가 : $0")
  /\ (year_high data = None ->
        high_str data = py "$0" /\ high_line data = py "52주 최고가 : $0")
  /\ (drop_rate data = py "N/A" ->
        drop_str data = py "-0.00%" /\ drop_line data = py "고점대비하락률 : -0.00%")
  /\ (daily_change data = py "N/A" ->
        daily_str data = py "0.00%"
        /\ daily_line data = py "일 등락율 : " ++ BLUE ++ py "0.00%" ++ reset_code).
Proof.
  split; [|split; [|split]].
  - intros H. unfold price_line, price_str. rewrite H. split; reflexivity.
  - intros H. unfold high_line, high_str. rewrite H. split; reflexivity.
  - intros H. unfold drop_line, colored_drop_str, drop_str. rewrite H.
    split; reflexivity.
  - intros H. unfold daily_line, colored_daily_str, daily_str. rewrite H.
    split; reflexivity.
Qed.

(** A record with every field unavailable renders ["$0"], ["$0"], an
    uncoloured ["-0.00%"] and ["0.00%"] in the neutral colour. *)
Example summary_of_unavailable :
  lines (format_stock_summary unavailable AAPL) =
    [ py "=== AAPL(N/A) ===";
      py "현재가 : $0";
      py "52주 최고가 : $0";
      py "고점대비하락률 : -0.00%";
      py "일 등락율 : " ++ BLUE ++ py "0.00%" ++ reset_code ].
Proof. reflexivity. Qed.

(* ================================================================== *)
(** ** Lines of the summary *)

Lemma no_newline_iff (s : pystr) : no_newline s <-> has_newline s = false.
Proof.
  unfold no_newline, has_newline. split.
  - intros H. destruct (existsb (N.eqb LF) s) eqn:E; [|reflexivity].
    apply existsb_exists in E as (c & Hin & Hc). apply N.eqb_eq in Hc. subst c.
    contradiction.
  - intros H Hin. assert (E : existsb (N.eqb LF) s = true).
    { apply existsb_exists. exists LF. split; [exact Hin | apply N.eqb_refl]. }
    congruence.
Qed.

Lemma has_newline_app (a b : pystr) :
  has_newline (a ++ b) = has_newline a || has_newline b.
Proof. apply existsb_app. Qed.

Lemma lines_from_app (a cur rest : pystr) :
  has_newline a = false ->
  lines_from cur (a ++ LF :: rest) = (rev cur ++ a) :: lines_from [] rest.
Proof.
  revert cur. induction a as [|c a IH]; intros cur H.
  - cbn [app lines_from]. rewrite N.eqb_refl, app_nil_r. reflexivity.
  - change (has_newline (c :: a)) with ((LF =? c)%N || has_newline a) in H.
    apply orb_false_iff in H as [Hc Ha].
    cbn [app lines_from]. rewrite N.eqb_sym, Hc. rewrite (IH (c :: cur) Ha).
    cbn [rev]. rewrite <- app_assoc. reflexivity.
Qed.

Lemma lines_from_end (a cur : pystr) :
  has_newline a = false -> lines_from cur a = [rev cur ++ a].
Proof.
  revert cur. induction a as [|c a IH]; intros cur H.
  - cbn [lines_from]. rewrite app_nil_r. reflexivity.
  - change (has_newline (c :: a)) with ((LF =? c)%N || has_newline a) in H.
    apply orb_false_iff in H as [Hc Ha].
    cbn [lines_from]. rewrite N.eqb_sym, Hc. rewrite (IH (c :: cur) Ha).
    cbn [rev]. rewrite <- app_assoc. reflexivity.
Qed.

Lemma lines_first (a rest : pystr) :
  has_newline a = false -> lines (a ++ LF :: rest) = a :: lines rest.
Proof. intros H. exact (lines_from_app a [] rest H). Qed.

Lemma lines_single (a : pystr) : has_newline a = false -> lines a = [a].
Proof. intros H. exact (lines_from_end a [] H). Qed.

Lemma uint_digits_one_line (u : Decimal.uint) : has_newline (uint_digits u) = false.
Proof. induction u; simpl; auto. Qed.

Lemma two_digits_one_line (n : Z) : has_newline (two_digits n) = false.
Proof.
  unfold two_digits, digits_of.
  destruct (n <? 10)%Z; simpl; apply uint_digits_one_line.
Qed.

Lemma format_2f_one_line (x : float) : has_newline (format_2f x) = false.
Proof.
  unfold format_2f.
  destruct (Prim2SF x) as [[|]|[|]| |s m e]; try reflexivity.
  rewrite !has_newline_app. unfold digits_of.
  rewrite uint_digits_one_line, two_digits_one_line.
  destruct s; reflexivity.
Qed.

Lemma price_line_one_line (data : TickerRecord) : has_newline (price_line data) = false.
Proof.
  unfold price_line, price_str. destruct (current_price data); [|reflexivity].
  rewrite !has_newline_app, format_2f_one_line. reflexivity.
Qed.

Lemma high_line_one_line (data : TickerRecord) : has_newline (high_line data) = false.
Proof.
  unfold high_line, high_str. destruct (year_high data); [|reflexivity].
  rewrite !has_newline_app, format_2f_one_line. reflexivity.
Qed.

Lemma drop_str_one_line (data : TickerRecord) :
  has_newline (drop_rate data) = false -> has_newline (drop_str data) = false.
Proof.
  intros H. unfold drop_str. destruct (negb _); [exact H | reflexivity].
Qed.

Lemma daily_str_one_line (data : TickerRecord) :
  has_newline (daily_change data) = false -> has_newline (daily_str data) = false.
Proof.
  intros H. unfold daily_str. destruct (negb _); [exact H | reflexivity].
Qed.

Lemma drop_line_one_line (data : TickerRecord) :
  has_newline (drop_rate data) = false -> has_newline (drop_line data) = false.
Proof.
  intros H. unfold drop_line. rewrite colored_drop_str_cases.
  destruct (at_least_ten _); rewrite !has_newline_app, drop_str_one_line by exact H;
    reflexivity.
Qed.

Lemma daily_line_one_line (data : TickerRecord) :
  has_newline (daily_change data) = false -> has_newline (daily_line data) = false.
Proof.
  intros H. unfold daily_line. rewrite colored_daily_str_cases.
  rewrite !has_newline_app, daily_str_one_line by exact H.
  destruct (below_zero _); reflexivity.
Qed.

Lemma header_line_one_line (data : TickerRecord) (ticker : pystr) :
  has_newline ticker = false -> has_newline (stock_name data) = false ->
  has_newline (header_line data ticker) = false.
Proof.
  intros Ht Hn. unfold header_line. rewrite !has_newline_app, Ht, Hn. reflexivity.
Qed.

(** C7, as amended.  For every record and ticker whose ticker, name,
    drawdown and daily-change strings hold no line feed, the summary is
    exactly five lines: the header [=== TICKER(NAME) ===], then the current
    price, the 52-week high, the drawdown and the daily change, in that
    order, whichever fields are missing. *)
Theorem summary_lines (data : TickerRecord) (ticker : pystr) :
  no_newline ticker -> no_newline (stock_name data) ->
  no_newline (drop_rate data) -> no_newline (daily_change data) ->
  lines (format_stock_summary data ticker) =
    [ py "=== " ++ ticker ++ py "(" ++ stock_name data ++ py ") ===";
      py "현재가 : " ++ price_str data;
      py "52주 최고가 : " ++ high_str data;
      py "고점대비하락률 : " ++ colored_drop_str data;
      py "일 등락율 : " ++ colored_daily_str data ].
Proof.
  intros Ht Hn Hd Hc. apply no_newline_iff in Ht, Hn, Hd, Hc.
  unfold format_stock_summary.
  change (header_line data ticker ++ [LF] ++ price_line data ++ [LF]
          ++ high_line data ++ [LF] ++ drop_line data ++ [LF] ++ daily_line data)
    with (header_line data ticker ++ LF :: price_line data ++ LF
          :: high_line data ++ LF :: drop_line data ++ LF :: daily_line data).
  rewrite (lines_first _ _ (header_line_one_line data ticker Ht Hn)).
  rewrite (lines_first _ _ (price_line_one_line data)).
  rewrite (lines_first _ _ (high_line_one_line data)).
  rewrite (lines_first _ _ (drop_line_one_line data Hd)).
  rewrite (lines_single _ (daily_line_one_line data Hc)).
  unfold header_line, price_line, high_line, drop_line, daily_line.
  reflexivity.
Qed.

(** The amended C7 at a record with every field present. *)
Lemma summary_lines_witness :
  lines (format_stock_summary apple AAPL) =
    [ py "=== AAPL(Apple Inc.) ===";
      py "현재가 : $150.00";
      py "52주 최고가 : $200.00";
      py "고점대비하락률 : " ++ PURPLE ++ py "-25.0%" ++ reset_code;
      py "일 등락율 : " ++ RED ++ py "-1.5%" ++ reset_code ].
Proof.
  refine (eq_trans (summary_lines apple AAPL _ _ _ _) _);
    try (apply no_newline_iff; reflexivity).
  reflexivity.
Defined.

(** C7 as stated fails: a name that holds a line feed gives a summary of six
    lines, the header broken in two. *)
Lemma summary_of_two_line_name :
  lines (format_stock_summary two_line_name AAPL) =
    [ py "=== AAPL(Apple";
      py "Inc.) ===";
      py "현재가 : $150.00";
      py "52주 최고가 : $200.00";
      py "고점대비하락률 : " ++ PURPLE ++ py "-25.0%" ++ reset_code;
      py "일 등락율 : " ++ RED ++ py "-1.5%" ++ reset_code ]
  /\ List.length (lines (format_stock_summary two_line_name AAPL)) = 6%nat
  /\ List.length (lines (format_stock_summary two_line_name AAPL)) <> 5%nat.
Proof.
  repeat split; try reflexivity. vm_compute. discriminate.
Qed.

(* ================================================================== *)
(** ** The run *)

Lemma bind_trace {A B} (m : Py A) (f : A -> Py B) (a : A) :
  result m = Normal a -> trace (bind m f) = trace m ++ trace (f a).
Proof.
  destruct m as [tr r]. simpl. intros ->. simpl. destruct (f a); reflexivity.
Qed.

Lemma bind_result {A B} (m : Py A) (f : A -> Py B) (a : A) :
  result m = Normal a -> result (bind m f) = result (f a).
Proof.
  destruct m as [tr r]. simpl. intros ->. simpl. destruct (f a); reflexivity.
Qed.

Lemma calls_app (a b : list event) : calls (a ++ b) = calls a ++ calls b.
Proof. apply filter_app. Qed.

Lemma calls_get_stock_data (yf : provider) (ticker : pystr) :
  calls (trace (get_stock_data yf ticker)) = [Asked ticker].
Proof.
  destruct (yf ticker) as [stock|message] eqn:E.
  - rewrite (get_stock_data_found yf ticker stock E). reflexivity.
  - rewrite (get_stock_data_failed yf ticker message E). reflexivity.
Qed.

Lemma calls_when_print (c : bool) (text : pystr) : calls (trace (when c (print text))) = [].
Proof. destruct c; reflexivity. Qed.

Lemma calls_when_sleep (c : bool) :
  calls (trace (when c (emit (Slept delay)))) = if c then [Slept delay] else [].
Proof. destruct c; reflexivity. Qed.

Lemma result_print (text : pystr) : result (print text) = Normal tt.
Proof. reflexivity. Qed.

Lemma result_when_print (c : bool) (text : pystr) :
  result (when c (print text)) = Normal tt.
Proof. destruct c; reflexivity. Qed.

Lemma result_when_sleep (c : bool) :
  result (when c (emit (Slept delay))) = Normal tt.
Proof. destruct c; reflexivity. Qed.

(** The inner loop never raises; it asks for each ticker in turn and pauses
    while the count stays below the total. *)
Lemma for_tickers_paced (yf : provider) (total n : Z) (tickers : list pystr) :
  forall i count,
    result (for_tickers yf total n i tickers count) = Normal (count + len tickers)%Z
    /\ calls (trace (for_tickers yf total n i tickers count)) = paced total count tickers.
Proof.
  induction tickers as [|ticker rest IH]; intros i count.
  - split; [simpl; f_equal; unfold len; simpl; lia | reflexivity].
  - destruct (IH (i + 1)%Z (count + 1)%Z) as [IHr IHc].
    pose proof (get_stock_data_result yf ticker) as Hg.
    set (data := match yf ticker with
                 | Normal stock => record_of stock
                 | Raised _ => unavailable
                 end) in Hg.
    cbn [for_tickers]. split.
    + rewrite (bind_result _ _ data Hg).
      rewrite (bind_result _ _ tt (result_print _)).
      rewrite (bind_result _ _ tt (result_when_print _ _)).
      rewrite (bind_result _ _ tt (result_when_sleep _)).
      rewrite IHr. f_equal. unfold len. simpl List.length. lia.
    + rewrite (bind_trace _ _ data Hg), calls_app, calls_get_stock_data.
      rewrite (bind_trace _ _ tt (result_print _)), calls_app.
      rewrite (bind_trace _ _ tt (result_when_print _ _)), calls_app, calls_when_print.
      rewrite (bind_trace _ _ tt (result_when_sleep _)), calls_app, calls_when_sleep.
      rewrite IHc. reflexivity.
Qed.

Lemma paced_app (total : Z) (a b : list pystr) :
  forall count,
    paced total count (a ++ b) = paced total count a ++ paced total (count + len a) b.
Proof.
  induction a as [|t a IH]; intros count.
  - simpl. f_equal. unfold len. simpl. lia.
  - cbn [app paced]. rewrite IH. f_equal. rewrite <- app_assoc.
    replace (count + len (t :: a))%Z with (count + 1 + len a)%Z
      by (unfold len; simpl List.length; lia).
    reflexivity.
Qed.

(** The outer loop never raises; over the whole table it asks and pauses as
    the inner loop would over the tickers laid end to end. *)
Lemma for_sectors_paced (yf : provider) (total : Z) (items : list (pystr * list pystr)) :
  forall count,
    result (for_sectors yf total items count)
      = Normal (count + len (all_tickers items))%Z
    /\ calls (trace (for_sectors yf total items count))
       = paced total count (all_tickers items).
Proof.
  induction items as [|[sector_name tickers] rest IH]; intros count.
  - split; [simpl; f_equal; unfold len; simpl; lia | reflexivity].
  - destruct (for_tickers_paced yf total (len tickers) tickers 0%Z count) as [Hr Hc].
    destruct (IH (count + len tickers)%Z) as [IHr IHc].
    cbn [for_sectors]. unfold all_tickers. cbn [map List.concat snd].
    fold (all_tickers rest). split.
    + rewrite (bind_result _ _ tt (result_print _)),
        (bind_result _ _ tt (result_print _)),
        (bind_result _ _ tt (result_print _)), (bind_result _ _ _ Hr),
        (bind_result _ _ tt (result_print _)), IHr.
      f_equal. unfold len. rewrite length_app. lia.
    + rewrite (bind_trace _ _ tt (result_print _)), calls_app,
        (bind_trace _ _ tt (result_print _)), calls_app,
        (bind_trace _ _ tt (result_print _)), calls_app,
        (bind_trace _ _ _ Hr), calls_app, Hc,
        (bind_trace _ _ tt (result_print _)), calls_app, IHc.
      rewrite paced_app. reflexivity.
Qed.

Lemma fold_left_add_len (table : list (pystr * list pystr)) :
  forall a, fold_left Z.add (map (fun item => len (snd item)) table) a
            = (a + len (all_tickers table))%Z.
Proof.
  induction table as [|[name tickers] rest IH]; intros a.
  - simpl. unfold len. simpl. lia.
  - cbn [map fold_left snd]. rewrite IH. unfold all_tickers. cbn [map List.concat snd].
    unfold len. rewrite length_app. lia.
Qed.

Lemma total_of_len (table : list (pystr * list pystr)) :
  total_of table = len (all_tickers table).
Proof. unfold total_of. rewrite fold_left_add_len. lia. Qed.

(** When the total is the number of tickers, a pause follows every ticker
    but the last. *)
Lemma paced_schedule (tickers : list pystr) :
  forall count, paced (count + len tickers) count tickers = schedule tickers.
Proof.
  induction tickers as [|t rest IH]; intros count; [reflexivity|].
  cbn [paced schedule].
  replace (count + len (t :: rest))%Z with (count + 1 + len rest)%Z
    by (unfold len; simpl List.length; lia).
  rewrite IH. destruct rest as [|t' rest'].
  - replace (count + 1 <? count + 1 + len [])%Z with false; [reflexivity|].
    symmetry. apply Z.ltb_ge. unfold len. simpl. lia.
  - replace (count + 1 <? count + 1 + len (t' :: rest'))%Z with true; [reflexivity|].
    symmetry. apply Z.ltb_lt. unfold len. simpl List.length. lia.
Qed.

(** A run never raises, and its calls and pauses are the schedule of the
    table's tickers. *)
Lemma run_schedule (table : list (pystr * list pystr)) (yf : provider) :
  result (run table yf) = Normal tt
  /\ calls (trace (run table yf)) = schedule (all_tickers table).
Proof.
  destruct (for_sectors_paced yf (total_of table) table 0%Z) as [Hr Hc].
  unfold run. split.
  - rewrite (bind_result _ _ tt (result_print _)), (bind_result _ _ _ Hr). reflexivity.
  - rewrite (bind_trace _ _ tt (result_print _)), calls_app,
      (bind_trace _ _ _ Hr), calls_app, Hc.
    rewrite total_of_len.
    change (len (all_tickers table)) with (0 + len (all_tickers table))%Z.
    rewrite (paced_schedule (all_tickers table) 0%Z).
    simpl. apply app_nil_r.
Qed.

Lemma asked_calls (tr : list event) : asked (calls tr) = asked tr.
Proof.
  induction tr as [|[text|seconds|symbol] tr IH]; simpl; congruence.
Qed.

Lemma pauses_calls (tr : list event) : pauses (calls tr) = pauses tr.
Proof.
  induction tr as [|[text|seconds|symbol] tr IH]; simpl; congruence.
Qed.

Lemma asked_schedule (tickers : list pystr) : asked (schedule tickers) = tickers.
Proof.
  induction tickers as [|t rest IH]; [reflexivity|].
  cbn [schedule]. destruct rest as [|t' rest']; [reflexivity|].
  simpl in *. congruence.
Qed.

Lemma pauses_schedule (tickers : list pystr) :
  pauses (schedule tickers) = repeat delay (List.length tickers - 1).
Proof.
  induction tickers as [|t rest IH]; [reflexivity|].
  cbn [schedule]. destruct rest as [|t' rest']; [reflexivity|].
  change (pauses (Asked t :: Slept delay :: schedule (t' :: rest')))
    with (delay :: pauses (schedule (t' :: rest'))).
  rewrite IH. simpl. rewrite Nat.sub_0_r. reflexivity.
Qed.

(** C8.  A run over a table of N tickers calls the provider exactly N
    times, in the order of the sectors and, within a sector, of its
    tickers, with exactly N - 1 pauses of the fixed delay: one between
    every two consecutive tickers and none after the last ticker overall.
    For the built-in table that is 29 calls and 28 pauses. *)
Theorem run_fetches_and_delays (table : list (pystr * list pystr)) (yf : provider) :
  calls (trace (run table yf)) = schedule (all_tickers table)
  /\ asked (trace (run table yf)) = all_tickers table
  /\ List.length (asked (trace (run table yf))) = List.length (all_tickers table)
  /\ pauses (trace (run table yf))
     = repeat delay (List.length (all_tickers table) - 1)
  /\ List.length (pauses (trace (run table yf)))
     = (List.length (all_tickers table) - 1)%nat
  /\ List.length (asked (trace (main yf))) = 29%nat
  /\ List.length (pauses (trace (main yf))) = 28%nat.
Proof.
  assert (Ha : forall t, asked (trace (run t yf)) = all_tickers t).
  { intros t. destruct (run_schedule t yf) as [_ Hc].
    rewrite <- asked_calls, Hc. apply asked_schedule. }
  assert (Hp : forall t, pauses (trace (run t yf))
                         = repeat delay (List.length (all_tickers t) - 1)).
  { intros t. destruct (run_schedule t yf) as [_ Hc].
    rewrite <- pauses_calls, Hc. apply pauses_schedule. }
  destruct (run_schedule table yf) as [_ Hc].
  repeat split.
  - exact Hc.
  - apply Ha.
  - rewrite Ha. reflexivity.
  - apply Hp.
  - rewrite Hp. apply repeat_length.
  - unfold main. rewrite Ha. reflexivity.
  - unfold main. rewrite Hp, repeat_length. reflexivity.
Qed.

(* ================================================================== *)
(** ** Failures of the provider *)

(** C2.  For every ticker the fetch ends with a record and raises nothing.
    When the provider call raises, the record has every field absent or
    ["N/A"], and one line is printed that holds the first 50 characters of
    the error message; the run goes on: whatever the provider does, it ends
    normally having asked for every ticker of the table. *)
Theorem fetch_never_raises (yf : provider) (ticker : pystr) :
  (exists r, result (get_stock_data yf ticker) = Normal r)
  /\ (forall message, yf ticker = Raised message ->
        get_stock_data yf ticker =
          ( [ Asked ticker;
              Printed (py "  " ++ ticker ++ py " 데이터 수집 실패: "
                       ++ firstn 50 message ++ py "...") ],
            Normal {| stock_name := py "N/A";
                      current_price := None;
                      year_high := None;
                      drop_rate := py "N/A";
                      daily_change := py "N/A" |} ))
  /\ (forall table,
        result (run table yf) = Normal tt
        /\ asked (trace (run table yf)) = all_tickers table).
Proof.
  split; [|split].
  - eexists. apply get_stock_data_result.
  - intros message H. apply (get_stock_data_failed yf ticker message H).
  - intros table. destruct (run_schedule table yf) as [Hr Hc].
    split; [exact Hr|]. rewrite <- asked_calls, Hc. apply asked_schedule.
Qed.

(** A failing provider: the message is cut after its 50th character, and
    the run still asks for all 29 tickers. *)
Example failing_provider_run :
  get_stock_data
    (failing (py "HTTPSConnectionPool(host='query2.finance.yahoo.com', port=443)"))
    AAPL
  = ( [ Asked AAPL;
        Printed (py "  AAPL 데이터 수집 실패: HTTPSConnectionPool(host='query2.finance.yahoo.com...") ],
      Normal unavailable )
  /\ result (main (failing (py "down"))) = Normal tt
  /\ asked (trace (main (failing (py "down")))) = all_tickers SECTOR_TICKERS.
Proof. repeat split; vm_compute; reflexivity. Qed.

(* ================================================================== *)
(** ** The other fields of the fetch *)

(** X1.  The year high of a fetch is the first usable value among the
    fast-quote year high and the metadata 52-week high, a value being usable
    when it is neither null, zero nor NaN; a fast quote that raises, as a
    whole or on its year high, leaves the metadata value, and metadata that
    raises leaves the fast-quote value. *)
Theorem year_high_by_priority (yf : provider) (ticker : pystr) (stock : Yf.Stock) :
  yf ticker = Normal stock ->
  exists r,
    result (get_stock_data yf ticker) = Normal r
    /\ year_high r =
         first_of [usable (fast_year_high stock); usable (metadata_high stock)]
    /\ (forall e, Yf.fast_info stock = Raised e ->
          year_high r = usable (metadata_high stock))
    /\ (forall fast e, Yf.fast_info stock = Normal fast -> Yf.year_high fast = Raised e ->
          year_high r = usable (metadata_high stock))
    /\ (forall e, Yf.info stock = Raised e ->
          year_high r = usable (fast_year_high stock)).
Proof.
  intros Hs. exists (record_of stock).
  rewrite (get_stock_data_found yf ticker stock Hs).
  split; [reflexivity|]. split; [reflexivity|].
  change (year_high (record_of stock)) with (high_of stock). unfold high_of.
  split; [|split].
  - intros e He. unfold fast_year_high. rewrite He. simpl.
    destruct (usable (metadata_high stock)); reflexivity.
  - intros fast e Hf He. unfold fast_year_high. rewrite Hf, He. simpl.
    destruct (usable (metadata_high stock)); reflexivity.
  - intros e He. unfold metadata_high, metadata. rewrite He. simpl.
    destruct (usable (fast_year_high stock)); reflexivity.
Qed.

(** X1 at a stock without fast quote: the metadata high, 200, is taken. *)
Lemma year_high_by_priority_witness :
  exists r,
    result (get_stock_data (answering history_stock) AAPL) = Normal r
    /\ year_high r = Some 200%float.
Proof.
  destruct (year_high_by_priority (answering history_stock) AAPL history_stock eq_refl)
    as (r & Hr & Hh & _).
  exists r. split; [exact Hr | exact Hh].
Defined.

(** X2.  The name of a fetch is the metadata short name when that is a
    non-empty string, and ["N/A"] when the short name is missing or empty,
    when the metadata is a false value, and when reading it raises. *)
Theorem stock_name_of_fetch (yf : provider) (ticker : pystr) (stock : Yf.Stock) :
  yf ticker = Normal stock ->
  exists r,
    result (get_stock_data yf ticker) = Normal r
    /\ (forall info name,
          Yf.info stock = Normal (Some info) -> Yf.shortName info = Some name ->
          name <> [] -> stock_name r = name)
    /\ (forall info,
          Yf.info stock = Normal (Some info) ->
          Yf.shortName info = None \/ Yf.shortName info = Some [] ->
          stock_name r = py "N/A")
    /\ (Yf.info stock = Normal None -> stock_name r = py "N/A")
    /\ (forall e, Yf.info stock = Raised e -> stock_name r = py "N/A").
Proof.
  intros Hs. exists (record_of stock).
  rewrite (get_stock_data_found yf ticker stock Hs).
  split; [reflexivity|].
  change (stock_name (record_of stock)) with (name_of stock).
  unfold name_of, metadata.
  split; [|split; [|split]].
  - intros info name Hi Hn Hne. rewrite Hi. simpl. rewrite Hn.
    destruct name; [contradiction | reflexivity].
  - intros info Hi [Hn|Hn]; rewrite Hi; simpl; rewrite Hn; reflexivity.
  - intros Hi. rewrite Hi. reflexivity.
  - intros e Hi. rewrite Hi. reflexivity.
Qed.

(** X2 at a stock with metadata: its short name is the name. *)
Lemma stock_name_of_fetch_witness :
  exists r,
    result (get_stock_data (answering history_stock) AAPL) = Normal r
    /\ stock_name r = py "Apple Inc.".
Proof.
  destruct (stock_name_of_fetch (answering history_stock) AAPL history_stock eq_refl)
    as (r & Hr & Hname & _).
  exists r. split; [exact Hr|].
  refine (Hname _ (py "Apple Inc.") eq_refl eq_refl _). discriminate.
Defined.

(** X3.  The daily change of a fetch is the metadata regular-market change
    percent rounded to two decimals and followed by ["%"] whenever that
    value is present and not a NaN, a zero change included (["0.0%"]); it is
    ["N/A"] when the value is missing or a NaN, when the metadata is a
    false value, and when reading it raises. *)
Theorem daily_change_of_fetch (yf : provider) (ticker : pystr) (stock : Yf.Stock) :
  yf ticker = Normal stock ->
  exists r,
    result (get_stock_data yf ticker) = Normal r
    /\ (forall info c,
          Yf.info stock = Normal (Some info) ->
          Yf.regularMarketChangePercent info = Some c -> isna c = false ->
          daily_change r = repr (round2 c) ++ py "%")
    /\ (forall info,
          Yf.info stock = Normal (Some info) ->
          Yf.regularMarketChangePercent info = Some 0%float ->
          daily_change r = py "0.0%")
    /\ (forall info,
          Yf.info stock = Normal (Some info) ->
          (Yf.regularMarketChangePercent info = None
           \/ exists c, Yf.regularMarketChangePercent info = Some c /\ isna c = true) ->
          daily_change r = py "N/A")
    /\ (Yf.info stock = Normal None -> daily_change r = py "N/A")
    /\ (forall e, Yf.info stock = Raised e -> daily_change r = py "N/A").
Proof.
  intros Hs. exists (record_of stock).
  rewrite (get_stock_data_found yf ticker stock Hs).
  split; [reflexivity|].
  change (daily_change (record_of stock)) with (change_of stock).
  unfold change_of, metadata.
  split; [|split; [|split; [|split]]].
  - intros info c Hi Hc Hnan. rewrite Hi. simpl. rewrite Hc, Hnan. reflexivity.
  - intros info Hi Hc. rewrite Hi. simpl. rewrite Hc. reflexivity.
  - intros info Hi [Hc|(c & Hc & Hnan)]; rewrite Hi; simpl; rewrite Hc;
      [|rewrite Hnan]; reflexivity.
  - intros Hi. rewrite Hi. reflexivity.
  - intros e Hi. rewrite Hi. reflexivity.
Qed.

(** X3 at a stock unchanged on the day: the daily change is ["0.0%"]. *)
Lemma daily_change_of_fetch_witness :
  exists r,
    result (get_stock_data (answering flat_day_stock) AAPL) = Normal r
    /\ daily_change r = py "0.0%".
Proof.
  destruct (daily_change_of_fetch (answering flat_day_stock) AAPL flat_day_stock eq_refl)
    as (r & Hr & _ & Hzero & _).
  exists r. split; [exact Hr|].
  exact (Hzero _ eq_refl eq_refl).
Defined.

(** ** What the fetched values never are *)

Lemma usable_some (v : option float) (x : float) :
  usable v = Some x -> v = Some x /\ PyFloat.truthy x = true /\ isna x = false.
Proof.
  destruct v as [y|]; simpl; [|discriminate].
  destruct (PyFloat.truthy y) eqn:Et; destruct (isna y) eqn:En; simpl;
    try discriminate.
  intros H. injection H as <-. auto.
Qed.

(** X4.  In every fetch result a year high that is present is neither zero
    nor a NaN; and a current price that is present but zero or a NaN can
    only be the most recent close of the history, taken because the fast
    quote offered nothing usable. *)
Theorem fetched_values_checked (yf : provider) (ticker : pystr) (r : TickerRecord) :
  result (get_stock_data yf ticker) = Normal r ->
  (forall h, year_high r = Some h -> (h =? 0)%float = false /\ isna h = false)
  /\ (forall p, current_price r = Some p ->
        (p =? 0)%float = true \/ isna p = true ->
        exists stock,
          yf ticker = Normal stock
          /\ usable (fast_last_price stock) = None
          /\ last_close stock = Some p).
Proof.
  rewrite get_stock_data_result. intros H. injection H as <-.
  destruct (yf ticker) as [stock|message]; [|split; intros x Hx; discriminate Hx].
  split.
  - intros h. change (year_high (record_of stock)) with (high_of stock).
    unfold high_of, first_of.
    destruct (usable (fast_year_high stock)) as [a|] eqn:E1.
    + intros Hh. injection Hh as <-.
      apply usable_some in E1 as (_ & Ht & Hn). unfold PyFloat.truthy in Ht.
      apply negb_true_iff in Ht. auto.
    + destruct (usable (metadata_high stock)) as [b|] eqn:E2; [|discriminate].
      intros Hh. injection Hh as <-.
      apply usable_some in E2 as (_ & Ht & Hn). unfold PyFloat.truthy in Ht.
      apply negb_true_iff in Ht. auto.
  - intros p. change (current_price (record_of stock)) with (price_of stock).
    unfold price_of, first_of.
    destruct (usable (fast_last_price stock)) as [a|] eqn:E1.
    + intros Hp Hbad. injection Hp as <-.
      apply usable_some in E1 as (_ & Ht & Hn). unfold PyFloat.truthy in Ht.
      apply negb_true_iff in Ht. destruct Hbad; congruence.
    + destruct (last_close stock) as [c|] eqn:E2.
      * intros Hp _. injection Hp as <-. exists stock. auto.
      * destruct (usable (metadata_price stock)) as [b|] eqn:E3; [|discriminate].
        intros Hp Hbad. injection Hp as <-.
        apply usable_some in E3 as (_ & Ht & Hn). unfold PyFloat.truthy in Ht.
        apply negb_true_iff in Ht. destruct Hbad; congruence.
Qed.

(** X4 at a stock without fast quote: its year high, 200, is neither zero
    nor a NaN. *)
Lemma fetched_values_checked_witness :
  (200 =? 0)%float = false /\ isna 200%float = false.
Proof.
  refine (proj1 (fetched_values_checked (answering history_stock) AAPL
                   (record_of history_stock) _) 200%float _); reflexivity.
Defined.

(** ** A fetch that finds nothing *)

(** X5.  When the provider call itself succeeds the fetch prints nothing,
    whatever the reads of the stock do: its only event is the provider
    call.  If the metadata, the fast quote and the history all raise, the
    record is the all-unavailable one, as after a failed provider call, but
    without a diagnostic. *)
Theorem fetch_degrades_silently (yf : provider) (ticker : pystr) (stock : Yf.Stock) :
  yf ticker = Normal stock ->
  trace (get_stock_data yf ticker) = [Asked ticker]
  /\ (forall e1 e2 e3,
        Yf.info stock = Raised e1 -> Yf.fast_info stock = Raised e2 ->
        Yf.history stock = Raised e3 ->
        result (get_stock_data yf ticker) =
          Normal {| stock_name := py "N/A";
                    current_price := None;
                    year_high := None;
                    drop_rate := py "N/A";
                    daily_change := py "N/A" |}).
Proof.
  intros Hs. rewrite (get_stock_data_found yf ticker stock Hs).
  split; [reflexivity|].
  intros e1 e2 e3 H1 H2 H3. simpl. f_equal.
  unfold record_of, name_of, price_of, high_of, change_of, metadata_price,
    metadata_high, metadata, fast_last_price, fast_year_high, last_close.
  rewrite H1, H2, H3. reflexivity.
Qed.

(** X5 at a stock whose every read raises. *)
Lemma fetch_degrades_silently_witness :
  get_stock_data (answering silent_stock) AAPL = ([Asked AAPL], Normal unavailable).
Proof.
  destruct (fetch_degrades_silently (answering silent_stock) AAPL silent_stock eq_refl)
    as [Ht Hr].
  specialize (Hr _ _ _ eq_refl eq_refl eq_refl).
  destruct (get_stock_data (answering silent_stock) AAPL) as [tr res].
  simpl in Ht, Hr. subst tr res. reflexivity.
Defined.

(* ================================================================== *)
(** ** A price at or below the year high *)

Lemma SFmul_keeps_sign (s : bool) (x : spec_float) (m : positive) (e : Z) :
  has_sign s x = true ->
  has_sign s (SFmul prec emax x (S754_finite false m e)) = true.
Proof.
  destruct x as [s'|s'| |s' mx ex]; simpl; intros H; try discriminate;
    apply eqb_prop in H; subst s'; rewrite xorb_false_r; try apply eqb_reflx.
  apply binary_round_aux_sign. lia.
Qed.

Lemma SFdiv_keeps_sign (s : bool) (x : spec_float) (m : positive) (e : Z) :
  has_sign s x = true ->
  has_sign s (SFdiv prec emax x (S754_finite false m e)) = true.
Proof.
  destruct x as [s'|s'| |s' mx ex]; intros H; simpl in H; try discriminate;
    apply eqb_prop in H; subst s'; unfold SFdiv; rewrite xorb_false_r;
    try (simpl; apply eqb_reflx).
  pose proof (SFdiv_core_nonneg prec emax mx m ex e) as Hq.
  destruct (SFdiv_core_binary prec emax (Z.pos mx) ex (Z.pos m) e) as [[mz ez] lz].
  apply binary_round_aux_sign. exact Hq.
Qed.

Lemma binary_normalize_nonneg (n e : Z) :
  (0 <= n)%Z -> has_sign false (binary_normalize prec emax n e false) = true.
Proof.
  intros Hn. destruct n as [|p|p]; simpl; try reflexivity; try lia.
  apply binary_round_sign.
Qed.

(** The difference of a positive number and a smaller or equal positive
    one has its sign bit clear. *)
Lemma SFsub_at_most (m1 m2 : positive) (e1 e2 : Z) :
  valid_binary (S754_finite false m1 e1) = true ->
  valid_binary (S754_finite false m2 e2) = true ->
  SFleb (S754_finite false m2 e2) (S754_finite false m1 e1) = true ->
  has_sign false
    (SFsub prec emax (S754_finite false m1 e1) (S754_finite false m2 e2)) = true.
Proof.
  intros V1 V2 Hle.
  apply valid_finite in V1 as (_ & _ & D1).
  apply valid_finite in V2 as (D2 & E2 & _).
  pose proof (digits2_pos_bounds m1) as [_ B1].
  pose proof (digits2_pos_bounds m2) as [B2 _].
  assert (P2 : (2 ^ Z.pos (digits2_pos m2) <= 2 ^ 53)%Z)
    by (apply Z.pow_le_mono_r; lia).
  unfold SFleb, SFcompare in Hle.
  unfold SFsub, cond_Zopp, shl_align.
  apply binary_normalize_nonneg.
  destruct (Z.compare_spec e2 e1) as [E|E|E]; try discriminate.
  - (* same exponent: the mantissas are ordered *)
    subst e2. rewrite Z.min_id, Z.sub_diag. simpl fst.
    assert (Hm : (m2 <= m1)%positive).
    { unfold Pos.le, Pos.compare.
      revert Hle. destruct (Pos.compare_cont Eq m2 m1); intros; congruence. }
    lia.
  - (* smaller exponent: the larger number has a full mantissa *)
    rewrite Z.min_r by lia. rewrite Z.sub_diag.
    destruct (e2 - e1)%Z as [|d|d] eqn:Ed; try lia. simpl fst.
    pose proof (iter_xO_double m1 d) as Hd.
    rewrite D1 in B1 by lia. lia.
Qed.

(** Whatever is at most a positive finite number leaves a difference whose
    sign bit is clear. *)
Lemma SFsub_not_above (c : spec_float) (m : positive) (e : Z) :
  valid_binary (S754_finite false m e) = true -> valid_binary c = true ->
  SFleb c (S754_finite false m e) = true ->
  has_sign false (SFsub prec emax (S754_finite false m e) c) = true.
Proof.
  intros Vy Vc Hle.
  destruct c as [s|[|]| |[|] mc ec];
    try (unfold SFleb, SFcompare in Hle; discriminate); try reflexivity.
  - (* a negative number: the mantissas add up *)
    unfold SFsub, cond_Zopp. apply binary_normalize_nonneg. lia.
  - apply SFsub_at_most; assumption.
Qed.

Lemma Prim2SF_infinity : Prim2SF infinity = S754_infinity false.
Proof. reflexivity. Qed.

(** A price at or below a positive finite year high makes the rate a
    non-NaN float with its sign bit clear. *)
Lemma rate_of_sign_clear (cp yh : float) :
  (0 <? yh)%float = true -> (yh <? infinity)%float = true ->
  (cp <=? yh)%float = true ->
  has_sign false (Prim2SF (rate_of cp yh)) = true.
Proof.
  intros Hpos Hfin Hle. unfold rate_of.
  rewrite mul_spec, div_spec, sub_spec.
  destruct Prim2SF_hundred as (mh & eh & ->).
  pose proof (Prim2SF_valid yh) as Vy. pose proof (Prim2SF_valid cp) as Vc.
  rewrite leb_spec in Hle. rewrite ltb_spec, Prim2SF_infinity in Hfin.
  destruct (positive_cases yh Hpos) as [Ey|(my & ey & Ey)]; rewrite Ey in *.
  - discriminate Hfin.
  - unfold SF64mul, SF64div, SF64sub.
    apply SFmul_keeps_sign, SFdiv_keeps_sign, SFsub_not_above; assumption.
Qed.

Lemma hd_app (d : N) (a b : pystr) :
  hd d (a ++ b) = match a with [] => hd d b | c :: _ => c end.
Proof. destruct a; reflexivity. Qed.

Lemma digit_not_minus (c : N) : is_digit c = true -> c <> 45%N.
Proof.
  unfold is_digit. intros H. apply andb_true_iff in H as [H _].
  apply N.leb_le in H. lia.
Qed.

Lemma uint_digits_digits (u : Decimal.uint) : forallb is_digit (uint_digits u) = true.
Proof. induction u; simpl; auto. Qed.

Lemma digits_head (ds : pystr) (d : N) :
  forallb is_digit ds = true -> d <> 45%N -> hd d ds <> 45%N.
Proof.
  destruct ds as [|c ds]; simpl; intros H Hd; [exact Hd|].
  apply andb_true_iff in H as [H _]. apply digit_not_minus, H.
Qed.

(** The layout of [repr] never starts with a minus sign. *)
Lemma repr_layout_head (ds : pystr) (dp : Z) :
  forallb is_digit ds = true -> hd 0%N (repr_layout ds dp) <> 45%N.
Proof.
  intros H. unfold repr_layout.
  destruct ((dp <=? -4)%Z || (16 <? dp)%Z).
  - rewrite hd_app. destruct ds as [|d [|d' ds]]; simpl.
    + discriminate.
    + simpl in H. apply andb_true_iff in H as [H _]. apply digit_not_minus, H.
    + simpl in H. apply andb_true_iff in H as [H _]. apply digit_not_minus, H.
  - destruct (dp <=? 0)%Z; [simpl; discriminate|].
    destruct (dp <? Z.of_nat (List.length ds))%Z.
    + rewrite hd_app.
      destruct (firstn (Z.to_nat dp) ds) as [|c l] eqn:E; [simpl; discriminate|].
      assert (Hin : In c ds).
      { rewrite <- (firstn_skipn (Z.to_nat dp) ds), E. left. reflexivity. }
      apply digit_not_minus. rewrite forallb_forall in H. apply H, Hin.
    + destruct ds as [|c ds].
      * cbn [app]. unfold times.
        destruct (Z.to_nat (dp - Z.of_nat (List.length (@nil N)))); cbn; discriminate.
      * simpl in H. apply andb_true_iff in H as [H _]. apply digit_not_minus, H.
Qed.

Lemma shortest_digits_digits (m : positive) (e : Z) :
  forallb is_digit (fst (shortest_digits m e)) = true.
Proof.
  unfold shortest_digits.
  destruct (fraction m e) as [num den].
  destruct (shortest 16 m e (decimal_point num den) 1) as [d e10].
  destruct (strip_zeros 400 d e10) as [d' e10'].
  simpl. apply uint_digits_digits.
Qed.

(** The text of a float whose sign bit is clear does not start with a minus
    sign. *)
Lemma repr_no_minus (x : float) :
  has_sign false (Prim2SF x) = true -> hd 0%N (repr x) <> 45%N.
Proof.
  unfold repr.
  destruct (Prim2SF x) as [[|]|[|]| |[|] m e]; intros H; try discriminate H;
    try (simpl; discriminate).
  pose proof (shortest_digits_digits m e) as Hd.
  destruct (shortest_digits m e) as [ds dp]. simpl in Hd.
  simpl sign_str. simpl app. apply repr_layout_head, Hd.
Qed.

(** X6.  In every fetch result whose year high is positive and finite and
    whose current price is at or below it, the drawdown is ["-"] followed by
    the rounded rate and ["%"], the rounded rate has its sign bit clear, and
    so the string carries one minus sign only: it never begins with
    ["--"]. *)
Theorem drawdown_single_minus (yf : provider) (ticker : pystr) (r : TickerRecord)
    (cp yh : float) :
  result (get_stock_data yf ticker) = Normal r ->
  current_price r = Some cp -> year_high r = Some yh ->
  (0 <? yh)%float = true -> (yh <? infinity)%float = true ->
  (cp <=? yh)%float = true ->
  drop_rate r = py "-" ++ repr (round2 (rate_of cp yh)) ++ py "%"
  /\ has_sign false (Prim2SF (round2 (rate_of cp yh))) = true
  /\ forall rest, drop_rate r <> py "--" ++ rest.
Proof.
  intros H Hcp Hyh Hpos Hfin Hle.
  pose proof (rate_of_sign_clear cp yh Hpos Hfin Hle) as Hrate.
  pose proof (round2_sign false _ Hrate) as Hround.
  assert (E : drop_rate r = py "-" ++ repr (round2 (rate_of cp yh)) ++ py "%").
  { rewrite (fetched_drop_rate yf ticker r H), Hcp, Hyh. unfold drop_rate_of.
    rewrite Hpos, (isna_of_sign false _ Hrate). reflexivity. }
  split; [exact E|]. split; [exact Hround|].
  intros rest Hrest. rewrite E in Hrest.
  change (py "-" ++ repr (round2 (rate_of cp yh)) ++ py "%")
    with (45%N :: (repr (round2 (rate_of cp yh)) ++ py "%")) in Hrest.
  change (py "--" ++ rest) with (45%N :: 45%N :: rest) in Hrest.
  injection Hrest as Hrest.
  apply (f_equal (hd 0%N)) in Hrest. rewrite hd_app in Hrest. simpl in Hrest.
  pose proof (repr_no_minus _ Hround) as Hhd.
  destruct (repr (round2 (rate_of cp yh))) as [|c l]; simpl in *;
    [discriminate | contradiction].
Qed.

(** X6 at a price of 150 under a high of 200: the drawdown reads
    ["-25.0%"]. *)
Lemma drawdown_single_minus_witness :
  drop_rate (record_of (quoted (Some 150%float) (Some 200%float))) = py "-25.0%".
Proof.
  refine (eq_trans
            (proj1 (drawdown_single_minus
                      (answering (quoted (Some 150%float) (Some 200%float))) AAPL
                      (record_of (quoted (Some 150%float) (Some 200%float)))
                      150%float 200%float _ _ _ _ _ _)) _); reflexivity.
Defined.

(* ================================================================== *)
(** ** The summary of a fetched record *)

Lemma times_one_line (k : nat) : has_newline (times 48%N k) = false.
Proof. induction k; simpl; auto. Qed.

Lemma repr_layout_one_line (ds : pystr) (dp : Z) :
  has_newline ds = false -> has_newline (repr_layout ds dp) = false.
Proof.
  intros H. unfold repr_layout.
  destruct ((dp <=? -4)%Z || (16 <? dp)%Z).
  - destruct ds as [|d [|d' ds]]; rewrite has_newline_app;
      match goal with
      | |- has_newline ?mant || _ = false =>
          replace (has_newline mant) with false by (symmetry; exact H)
      end;
      rewrite !has_newline_app, two_digits_one_line;
      destruct (dp - 1 <? 0)%Z; reflexivity.
  - destruct (dp <=? 0)%Z.
    + rewrite !has_newline_app, times_one_line, H. reflexivity.
    + pose proof (firstn_skipn (Z.to_nat dp) ds) as Hs.
      apply (f_equal has_newline) in Hs. rewrite has_newline_app, H in Hs.
      apply orb_false_iff in Hs as [Hf Hk].
      destruct (dp <? Z.of_nat (List.length ds))%Z.
      * rewrite !has_newline_app, Hf, Hk. reflexivity.
      * rewrite !has_newline_app, times_one_line, H. reflexivity.
Qed.

Lemma repr_one_line (x : float) : has_newline (repr x) = false.
Proof.
  unfold repr.
  destruct (Prim2SF x) as [[|]|[|]| |s m e]; try reflexivity.
  unfold shortest_digits.
  destruct (fraction m e) as [num den].
  destruct (shortest 16 m e (decimal_point num den) 1) as [d e10].
  destruct (strip_zeros 400 d e10) as [d' e10'].
  rewrite has_newline_app, repr_layout_one_line by apply uint_digits_one_line.
  destruct s; reflexivity.
Qed.

Lemma drop_rate_of_one_line (cp yh : option float) :
  has_newline (drop_rate_of cp yh) = false.
Proof.
  unfold drop_rate_of.
  destruct cp as [cp|]; [|reflexivity]. destruct yh as [yh|]; [|reflexivity].
  destruct (0 <? yh)%float; [|reflexivity].
  destruct (negb (isna (rate_of cp yh))); [|reflexivity].
  rewrite !has_newline_app, repr_one_line. reflexivity.
Qed.

Lemma change_of_one_line (stock : Yf.Stock) : has_newline (change_of stock) = false.
Proof.
  unfold change_of.
  destruct (metadata stock) as [info|]; [|reflexivity].
  destruct (Yf.regularMarketChangePercent info) as [c|]; [|reflexivity].
  destruct (negb (isna c)); [|reflexivity].
  rewrite has_newline_app, repr_one_line. reflexivity.
Qed.

Lemma five_lines (data : TickerRecord) (ticker : pystr) :
  has_newline ticker = false -> has_newline (stock_name data) = false ->
  has_newline (drop_rate data) = false -> has_newline (daily_change data) = false ->
  lines (format_stock_summary data ticker) =
    [ header_line data ticker; price_line data; high_line data;
      drop_line data; daily_line data ].
Proof.
  intros Ht Hn Hd Hc. unfold format_stock_summary.
  change (header_line data ticker ++ [LF] ++ price_line data ++ [LF]
          ++ high_line data ++ [LF] ++ drop_line data ++ [LF] ++ daily_line data)
    with (header_line data ticker ++ LF :: price_line data ++ LF
          :: high_line data ++ LF :: drop_line data ++ LF :: daily_line data).
  rewrite (lines_first _ _ (header_line_one_line data ticker Ht Hn)).
  rewrite (lines_first _ _ (price_line_one_line data)).
  rewrite (lines_first _ _ (high_line_one_line data)).
  rewrite (lines_first _ _ (drop_line_one_line data Hd)).
  rewrite (lines_single _ (daily_line_one_line data Hc)).
  reflexivity.
Qed.

(** X7.  The summary of a fetched record is exactly five lines, header,
    current price, 52-week high, drawdown and daily change, as soon as the
    ticker and the fetched name hold no line feed: the drawdown and
    daily-change strings that a fetch builds never hold one. *)
Theorem fetched_summary_lines (yf : provider) (ticker : pystr) (r : TickerRecord) :
  result (get_stock_data yf ticker) = Normal r ->
  no_newline ticker -> no_newline (stock_name r) ->
  no_newline (drop_rate r) /\ no_newline (daily_change r)
  /\ lines (format_stock_summary r ticker) =
       [ py "=== " ++ ticker ++ py "(" ++ stock_name r ++ py ") ===";
         py "현재가 : " ++ price_str r;
         py "52주 최고가 : " ++ high_str r;
         py "고점대비하락률 : " ++ colored_drop_str r;
         py "일 등락율 : " ++ colored_daily_str r ].
Proof.
  intros H Ht Hn. apply no_newline_iff in Ht, Hn.
  assert (Hd : has_newline (drop_rate r) = false).
  { rewrite (fetched_drop_rate yf ticker r H). apply drop_rate_of_one_line. }
  assert (Hc : has_newline (daily_change r) = false).
  { rewrite get_stock_data_result in H. injection H as <-.
    destruct (yf ticker) as [stock|message]; [apply change_of_one_line | reflexivity]. }
  split; [apply no_newline_iff, Hd|]. split; [apply no_newline_iff, Hc|].
  rewrite (five_lines r ticker Ht Hn Hd Hc).
  unfold header_line, price_line, high_line, drop_line, daily_line. reflexivity.
Qed.

(** X7 at a stock known by its history and metadata. *)
Lemma fetched_summary_lines_witness :
  lines (format_stock_summary (record_of history_stock) AAPL) =
    [ py "=== AAPL(Apple Inc.) ===";
      py "현재가 : $150.00";
      py "52주 최고가 : $200.00";
      py "고점대비하락률 : " ++ PURPLE ++ py "-25.0%" ++ reset_code;
      py "일 등락율 : " ++ RED ++ py "-1.5%" ++ reset_code ].
Proof.
  refine (eq_trans
            (proj2 (proj2 (fetched_summary_lines (answering history_stock) AAPL
                             (record_of history_stock) _ _ _))) _);
    try (apply no_newline_iff); reflexivity.
Defined.

(* ================================================================== *)
(** ** The run, event by event *)

Lemma len_is_nil {A} (l : list A) : (len l =? 0)%Z = is_nil l.
Proof. destruct l; reflexivity. Qed.

Lemma len_nonneg {A} (l : list A) : (0 <= len l)%Z.
Proof. unfold len. lia. Qed.

Lemma len_cons {A} (x : A) (l : list A) : len (x :: l) = (1 + len l)%Z.
Proof. unfold len. simpl List.length. lia. Qed.

Lemma fetched_result (yf : provider) (ticker : pystr) :
  result (get_stock_data yf ticker) = Normal (fetched yf ticker).
Proof.
  unfold fetched. rewrite get_stock_data_result. reflexivity.
Qed.

(** The inner loop, started at index [i] of a sector of [n] tickers with
    [count] tickers done, [k] tickers waiting in later sectors. *)
Lemma for_tickers_events (yf : provider) (total n : Z) (tickers : list pystr) :
  forall i count k,
    (0 <= k)%Z -> n = (i + len tickers)%Z -> total = (count + len tickers + k)%Z ->
    trace (for_tickers yf total n i tickers count)
    = sector_events yf tickers (k =? 0)%Z.
Proof.
  induction tickers as [|ticker rest IH]; intros i count k Hk Hn Ht; [reflexivity|].
  rewrite len_cons in Hn, Ht.
  cbn [for_tickers sector_events]. unfold ticker_events.
  rewrite (bind_trace _ _ _ (fetched_result yf ticker)).
  rewrite (bind_trace _ _ tt (result_print _)).
  rewrite (bind_trace _ _ tt (result_when_print _ _)).
  rewrite (bind_trace _ _ tt (result_when_sleep _)).
  rewrite (IH (i + 1)%Z (count + 1)%Z k Hk) by lia.
  rewrite <- !app_assoc. f_equal. f_equal.
  pose proof (len_nonneg rest) as Hr. pose proof (len_is_nil rest) as Hnil.
  assert (E1 : (i <? n - 1)%Z = negb (is_nil rest)).
  { rewrite <- Hnil. destruct (Z.eqb_spec (len rest) 0); simpl.
    - apply Z.ltb_ge. lia.
    - apply Z.ltb_lt. lia. }
  assert (E2 : (count + 1 <? total)%Z = negb (is_nil rest && (k =? 0)%Z)).
  { rewrite <- Hnil.
    destruct (Z.eqb_spec (len rest) 0); destruct (Z.eqb_spec k 0); simpl;
      try (apply Z.ltb_ge; lia); apply Z.ltb_lt; lia. }
  rewrite E1, E2.
  destruct (is_nil rest); destruct (k =? 0)%Z; reflexivity.
Qed.

(** The outer loop over the sectors still to do. *)
Lemma for_sectors_events (yf : provider) (total : Z)
    (items : list (pystr * list pystr)) :
  forall count,
    total = (count + len (all_tickers items))%Z ->
    trace (for_sectors yf total items count) = table_events yf items.
Proof.
  induction items as [|[sector_name tickers] rest IH]; intros count Ht; [reflexivity|].
  unfold all_tickers in Ht. cbn [map List.concat snd] in Ht.
  fold (all_tickers rest) in Ht.
  assert (Hl : len (tickers ++ all_tickers rest) = (len tickers + len (all_tickers rest))%Z)
    by (unfold len; rewrite length_app; lia).
  rewrite Hl, Z.add_assoc in Ht.
  destruct (for_tickers_paced yf total (len tickers) tickers 0%Z count) as [Hr _].
  cbn [for_sectors table_events].
  rewrite (bind_trace _ _ tt (result_print _)).
  rewrite (bind_trace _ _ tt (result_print _)).
  rewrite (bind_trace _ _ tt (result_print _)).
  rewrite (bind_trace _ _ _ Hr).
  rewrite (bind_trace _ _ tt (result_print _)).
  rewrite (for_tickers_events yf total (len tickers) tickers 0%Z count
             (len (all_tickers rest)) (len_nonneg _) eq_refl Ht).
  rewrite (IH (count + len tickers)%Z) by lia.
  rewrite len_is_nil. reflexivity.
Qed.

(** X8.  A run ends normally and its events are, in order: the opening
    line; for each sector its three header lines, then for each of its
    tickers the events of the fetch, the summary of the fetched record, a
    separator line unless the ticker is the last of its sector and a pause
    unless no ticker is left in the whole table, then a blank line; and the
    closing line.  Over an empty table only the opening and closing lines
    are printed. *)
Theorem run_events (table : list (pystr * list pystr)) (yf : provider) :
  result (run table yf) = Normal tt
  /\ trace (run table yf) =
       Printed (py "Python 주식 포트폴리오 분석을 시작합니다..." ++ [LF])
       :: table_events yf table
       ++ [Printed (py "모든 분석이 완료되었습니다!")]
  /\ trace (run [] yf) =
       [ Printed (py "Python 주식 포트폴리오 분석을 시작합니다..." ++ [LF]);
         Printed (py "모든 분석이 완료되었습니다!") ].
Proof.
  destruct (for_sectors_paced yf (total_of table) table 0%Z) as [Hr _].
  split; [|split].
  - unfold run.
    rewrite (bind_result _ _ tt (result_print _)), (bind_result _ _ _ Hr).
    reflexivity.
  - unfold run.
    rewrite (bind_trace _ _ tt (result_print _)), (bind_trace _ _ _ Hr).
    rewrite (for_sectors_events yf (total_of table) table 0%Z)
      by (rewrite total_of_len; lia).
    reflexivity.
  - reflexivity.
Qed.

(* ================================================================== *)
(** ** The summary of a fetch that found nothing *)

(** X9.  When the provider call raises, or when it succeeds but the
    metadata, the fast quote and the history all raise, the summary of the
    fetched record shows the name ["N/A"], ["$0"] for the price and the
    high, an uncoloured ["-0.00%"] and ["0.00%"] in the neutral colour. *)
Theorem nothing_found_summary (yf : provider) (ticker : pystr) :
  (exists message, yf ticker = Raised message)
  \/ (exists stock e1 e2 e3,
        yf ticker = Normal stock /\ Yf.info stock = Raised e1
        /\ Yf.fast_info stock = Raised e2 /\ Yf.history stock = Raised e3) ->
  exists r,
    result (get_stock_data yf ticker) = Normal r
    /\ format_stock_summary r ticker =
         py "=== " ++ ticker ++ py "(N/A) ===" ++ [LF]
         ++ py "현재가 : $0" ++ [LF]
         ++ py "52주 최고가 : $0" ++ [LF]
         ++ py "고점대비하락률 : -0.00%" ++ [LF]
         ++ py "일 등락율 : " ++ BLUE ++ py "0.00%" ++ reset_code.
Proof.
  intros H. exists unavailable. split.
  - rewrite get_stock_data_result.
    destruct H as [(message & ->)|(stock & e1 & e2 & e3 & -> & H1 & H2 & H3)];
      [reflexivity|].
    f_equal.
    unfold record_of, name_of, price_of, high_of, change_of, metadata_price,
      metadata_high, metadata, fast_last_price, fast_year_high, last_close.
    rewrite H1, H2, H3. reflexivity.
  - unfold format_stock_summary, header_line. rewrite <- !app_assoc. reflexivity.
Qed.

(** X9 at a provider that is down. *)
Lemma nothing_found_summary_witness :
  exists r,
    result (get_stock_data (failing (py "down")) AAPL) = Normal r
    /\ lines (format_stock_summary r AAPL) =
         [ py "=== AAPL(N/A) ===";
           py "현재가 : $0";
           py "52주 최고가 : $0";
           py "고점대비하락률 : -0.00%";
           py "일 등락율 : " ++ BLUE ++ py "0.00%" ++ reset_code ].
Proof.
  destruct (nothing_found_summary (failing (py "down")) AAPL) as (r & Hr & Hf).
  - left. exists (py "down"). reflexivity.
  - exists r. split; [exact Hr|]. rewrite Hf. reflexivity.
Defined.

(* ================================================================== *)
(** ** The sign of the daily change *)

Lemma negative_sign (x : float) :
  (x <? 0)%float = true -> has_sign true (Prim2SF x) = true.
Proof.
  rewrite ltb_spec, Prim2SF_zero. unfold SFltb, SFcompare.
  destruct (Prim2SF x) as [s|[|]| |[|] m e]; try discriminate; reflexivity.
Qed.

Lemma positive_sign (x : float) :
  (0 <? x)%float = true -> has_sign false (Prim2SF x) = true.
Proof.
  intros H. destruct (positive_cases x H) as [->|(m & e & ->)]; reflexivity.
Qed.

(** X10.  The daily change of a fetch keeps the sign of the metadata change
    percent: for a change below zero the string begins with ["-"], for a
    change above zero it does not. *)
Theorem daily_change_sign (yf : provider) (ticker : pystr) (stock : Yf.Stock)
    (info : Yf.Info) (c : float) :
  yf ticker = Normal stock ->
  Yf.info stock = Normal (Some info) ->
  Yf.regularMarketChangePercent info = Some c ->
  exists r,
    result (get_stock_data yf ticker) = Normal r
    /\ ((c <? 0)%float = true -> exists rest, daily_change r = py "-" ++ rest)
    /\ ((0 <? c)%float = true -> forall rest, daily_change r <> py "-" ++ rest).
Proof.
  intros Hs Hi Hc. exists (record_of stock).
  rewrite (get_stock_data_found yf ticker stock Hs).
  split; [reflexivity|].
  change (daily_change (record_of stock)) with (change_of stock).
  unfold change_of, metadata. rewrite Hi. simpl. rewrite Hc.
  split.
  - intros Hneg. pose proof (negative_sign c Hneg) as Hsign.
    rewrite (isna_of_sign true c Hsign). simpl.
    destruct (repr_minus _ (round2_sign true c Hsign)) as (rest & ->).
    exists (rest ++ py "%"). reflexivity.
  - intros Hpos rest. pose proof (positive_sign c Hpos) as Hsign.
    rewrite (isna_of_sign false c Hsign). simpl.
    pose proof (repr_no_minus _ (round2_sign false c Hsign)) as Hhd.
    intros E. apply (f_equal (hd 0%N)) in E. rewrite hd_app in E.
    destruct (repr (round2 c)) as [|d l]; simpl in *; [discriminate | contradiction].
Qed.

(** X10 at a stock down 1.5% on the day: the daily change reads ["-1.5%"]. *)
Lemma daily_change_sign_witness :
  exists r,
    result (get_stock_data (answering history_stock) AAPL) = Normal r
    /\ exists rest, daily_change r = py "-" ++ rest.
Proof.
  destruct (daily_change_sign (answering history_stock) AAPL history_stock
              _ (-1.5)%float eq_refl eq_refl eq_refl) as (r & Hr & Hneg & _).
  exists r. split; [exact Hr | exact (Hneg eq_refl)].
Defined.
